(** * Khumbuza: the task store and its bootstrap script

    A shallow embedding of [khumbuza.py] (the commands [add], [list],
    [complete], [remove]) and of [setup_db.py] ([setup_database]), with the
    parts of the Python and SQLite libraries the two scripts call.

    - Python [int] is [Z]; a [str] is the [string] of its UTF-8 bytes, the
      form in which SQLite stores and compares a text; [None] is [None].
    - A database file is a finite map from table names to tables; the file
      system is a finite map from paths to database files.
    - Every command takes the state of the world (files and the number of
      connections that are open) and returns what it reported together
      with the new state.  [CURRENT_TIMESTAMP] and [date.today()] are
      arguments.
    - A connection works on its own copy of the tables of the file, which
      [commit] writes back; every command commits right after the one
      statement that writes.  Directories, permissions and locks are not
      modelled. *)

From Stdlib Require Import ZArith String Ascii Sorted.
From stdpp Require Import gmap strings list.

Local Open Scope string_scope.
Local Open Scope Z_scope.

(** ** The [datetime] library: calendar, [strptime], [isoformat] *)

Module datetime.

Record date := mkdate { year : Z; month : Z; day : Z }.

Definition MINYEAR : Z := 1.
Definition MAXYEAR : Z := 9999.
Definition _MAXORDINAL : Z := 3652059.

Definition _DAYS_IN_MONTH : list Z :=
  [-1; 31; 28; 31; 30; 31; 30; 31; 31; 30; 31; 30; 31].

Definition _DAYS_BEFORE_MONTH : list Z :=
  [-1; 0; 31; 59; 90; 120; 151; 181; 212; 243; 273; 304; 334].

Definition _is_leap (y : Z) : bool :=
  (y mod 4 =? 0) && (negb (y mod 100 =? 0) || (y mod 400 =? 0)).

Definition _days_before_year (y : Z) : Z :=
  let y := y - 1 in y * 365 + y / 4 - y / 100 + y / 400.

Definition _days_in_month (y m : Z) : Z :=
  if (m =? 2) && _is_leap y then 29 else nth (Z.to_nat m) _DAYS_IN_MONTH 0.

Definition _days_before_month (y m : Z) : Z :=
  nth (Z.to_nat m) _DAYS_BEFORE_MONTH 0
  + (if (2 <? m) && _is_leap y then 1 else 0).

Definition _ymd2ord (y m d : Z) : Z :=
  _days_before_year y + _days_before_month y m + d.

Definition _DI400Y : Z := Eval cbv in _days_before_year 401.
Definition _DI100Y : Z := Eval cbv in _days_before_year 101.
Definition _DI4Y : Z := Eval cbv in _days_before_year 5.

Definition _ord2ymd (n : Z) : date :=
  let n := n - 1 in
  let n400 := n / _DI400Y in
  let n := n mod _DI400Y in
  let y := n400 * 400 + 1 in
  let n100 := n / _DI100Y in
  let n := n mod _DI100Y in
  let n4 := n / _DI4Y in
  let n := n mod _DI4Y in
  let n1 := n / 365 in
  let n := n mod 365 in
  let y := y + n100 * 100 + n4 * 4 + n1 in
  if (n1 =? 4) || (n100 =? 4) then mkdate (y - 1) 12 31
  else
    let leapyear := (n1 =? 3) && (negb (n4 =? 24) || (n100 =? 3)) in
    let m := Z.shiftr (n + 50) 5 in
    let preceding :=
      nth (Z.to_nat m) _DAYS_BEFORE_MONTH 0
      + (if (2 <? m) && leapyear then 1 else 0) in
    if n <? preceding then
      let m := m - 1 in
      let preceding :=
        preceding
        - (nth (Z.to_nat m) _DAYS_IN_MONTH 0
           + (if (m =? 2) && leapyear then 1 else 0)) in
      mkdate y m (n - preceding + 1)
    else mkdate y m (n - preceding + 1).

(** [date(y, m, d)] raises [ValueError] unless the fields are in range. *)
Definition valid_date (d : date) : bool :=
  (MINYEAR <=? year d) && (year d <=? MAXYEAR)
  && (1 <=? month d) && (month d <=? 12)
  && (1 <=? day d) && (day d <=? _days_in_month (year d) (month d)).

Definition toordinal (d : date) : Z := _ymd2ord (year d) (month d) (day d).

Definition fromordinal (n : Z) : date := _ord2ymd n.

(** [d + timedelta(days=n)]: [None] is [OverflowError], raised by the
    [timedelta] constructor or by the addition. *)
Definition add_days (d : date) (n : Z) : option date :=
  if 999999999 <? Z.abs n then None
  else
    let o := toordinal d + n in
    if (0 <? o) && (o <=? _MAXORDINAL) then Some (fromordinal o) else None.

(** Comparison of dates, as [date.__le__] does it: on the triples. *)
Definition date_compare (a b : date) : comparison :=
  match year a ?= year b with
  | Eq => match month a ?= month b with
          | Eq => day a ?= day b
          | c => c
          end
  | c => c
  end.

Definition date_le (a b : date) : bool :=
  match date_compare a b with Gt => false | _ => true end.

(** *** Text of a date *)

Definition digit (n : Z) : ascii := ascii_of_N (48 + Z.to_N (n mod 10)).

(** ["%02d" % n] for [0 <= n < 100] and ["%04d" % n] for [0 <= n < 10000],
    the only values a date holds. *)
Definition fmt02 (n : Z) : string :=
  String (digit (n / 10)) (String (digit n) "").

Definition fmt04 (n : Z) : string :=
  String (digit (n / 1000)) (String (digit (n / 100)) (fmt02 n)).

Definition isoformat (d : date) : string :=
  (fmt04 (year d) ++ "-" ++ fmt02 (month d) ++ "-" ++ fmt02 (day d))%string.

(** *** [datetime.strptime(s, '%Y-%m-%d')]

    The library turns the format into the regular expression
    [(\d\d\d\d)-(1[0-2]|0[1-9]|[1-9])-(3[0-1]|[1-2]\d|0[1-9]|[1-9]| [1-9])],
    matches it at the start of the text, rejects text left over after the
    match, and builds the date from the three groups with [int].
    Alternatives are tried in order, the rest of the pattern being the
    continuation.  [\d] is any decimal digit of Unicode, in whatever
    script, and [int] reads it; the ranges are ranges of ASCII. *)

Definition byte (c : ascii) : Z := Z.of_N (N_of_ascii c).

(** The low six bits of a byte [10xxxxxx]. *)
Definition continuation (c : ascii) : option Z :=
  if (128 <=? byte c) && (byte c <? 192) then Some (byte c - 128) else None.

(** The first character of a text, decoded from UTF-8, and the rest. *)
Definition code_point (s : string) : option (Z * string) :=
  match s with
  | EmptyString => None
  | String a r =>
      if byte a <? 128 then Some (byte a, r)
      else if byte a <? 192 then None
      else if byte a <? 224 then
        match r with
        | String b r =>
            match continuation b with
            | Some b =>
                let cp := (byte a - 192) * 64 + b in
                if 128 <=? cp then Some (cp, r) else None
            | None => None
            end
        | EmptyString => None
        end
      else if byte a <? 240 then
        match r with
        | String b (String c r) =>
            match continuation b, continuation c with
            | Some b, Some c =>
                let cp := ((byte a - 224) * 64 + b) * 64 + c in
                if (2048 <=? cp) && negb ((55296 <=? cp) && (cp <=? 57343))
                then Some (cp, r) else None
            | _, _ => None
            end
        | _ => None
        end
      else if byte a <? 248 then
        match r with
        | String b (String c (String d r)) =>
            match continuation b, continuation c, continuation d with
            | Some b, Some c, Some d =>
                let cp := (((byte a - 240) * 64 + b) * 64 + c) * 64 + d in
                if (65536 <=? cp) && (cp <=? 1114111)
                then Some (cp, r) else None
            | _, _, _ => None
            end
        | _ => None
        end
      else None
  end.

(** The decimal digits of Unicode 14 (category Nd, the version of Python
    3.11): 66 runs of ten characters, each run the digits 0 to 9 in
    order; the list holds the first character of each run. *)
Definition decimal_runs : list Z :=
  [48; 1632; 1776; 1984; 2406; 2534; 2662; 2790; 2918; 3046; 3174; 3302;
   3430; 3558; 3664; 3792; 3872; 4160; 4240; 6112; 6160; 6470; 6608; 6784;
   6800; 6992; 7088; 7232; 7248; 42528; 43216; 43264; 43472; 43504; 43600;
   44016; 65296; 66720; 68912; 69734; 69872; 69942; 70096; 70384; 70736;
   70864; 71248; 71360; 71472; 71904; 72016; 72784; 73040; 73120; 92768;
   92864; 93008; 120782; 120792; 120802; 120812; 120822; 123200; 123632;
   125264; 130032].

(** The value of a character that is a decimal digit. *)
Definition decimal (cp : Z) : option Z :=
  match List.find (fun run => (run <=? cp) && (cp <? run + 10)) decimal_runs
  with
  | Some run => Some (cp - run)
  | None => None
  end.

Definition between (lo hi c : ascii) : bool :=
  ((N_of_ascii lo <=? N_of_ascii c) && (N_of_ascii c <=? N_of_ascii hi))%N.

Definition is_ascii_digit (c : ascii) : bool := between "0" "9" c.

Definition digit_value (c : ascii) : Z := Z.of_N (N_of_ascii c) - 48.

Definition orelse {A} (p q : option A) : option A :=
  match p with Some x => Some x | None => q end.

Definition lit {A} (c : ascii) (s : string) (k : string -> option A)
  : option A :=
  match s with
  | String a r => if Ascii.eqb a c then k r else None
  | EmptyString => None
  end.

(** [\d]: one decimal digit, with its value. *)
Definition any_digit {A} (s : string) (k : Z -> string -> option A)
  : option A :=
  match code_point s with
  | Some (cp, r) =>
      match decimal cp with
      | Some v => k v r
      | None => None
      end
  | None => None
  end.

(** One character in [lo..hi], then one in [lo'..hi']; the value is read
    as [int] reads the two characters (a blank counts for nothing). *)
Definition two {A} (lo hi lo' hi' : ascii) (s : string)
  (k : Z -> string -> option A) : option A :=
  match s with
  | String a (String b r) =>
      if between lo hi a && between lo' hi' b
      then k ((if is_ascii_digit a then 10 * digit_value a else 0)
              + digit_value b) r
      else None
  | _ => None
  end.

Definition one {A} (lo hi : ascii) (s : string)
  (k : Z -> string -> option A) : option A :=
  match s with
  | String a r => if between lo hi a then k (digit_value a) r else None
  | EmptyString => None
  end.

(** One character in [lo..hi], then [\d]. *)
Definition one_then_digit {A} (lo hi : ascii) (s : string)
  (k : Z -> string -> option A) : option A :=
  one lo hi s (fun a s => any_digit s (fun b s => k (10 * a + b) s)).

Definition group_Y {A} (s : string) (k : Z -> string -> option A)
  : option A :=
  any_digit s (fun a s =>
  any_digit s (fun b s =>
  any_digit s (fun c s =>
  any_digit s (fun d s => k (1000 * a + 100 * b + 10 * c + d) s)))).

Definition group_m {A} (s : string) (k : Z -> string -> option A)
  : option A :=
  orelse (two "1" "1" "0" "2" s k)
    (orelse (two "0" "0" "1" "9" s k)
       (one "1" "9" s k)).

Definition group_d {A} (s : string) (k : Z -> string -> option A)
  : option A :=
  orelse (two "3" "3" "0" "1" s k)
    (orelse (one_then_digit "1" "2" s k)
       (orelse (two "0" "0" "1" "9" s k)
          (orelse (one "1" "9" s k)
             (two " " " " "1" "9" s k)))).

(** The match: the three groups and the text after them. *)
Definition format_regex_match (s : string) : option (date * string) :=
  group_Y s (fun y s =>
  lit "-" s (fun s =>
  group_m s (fun m s =>
  lit "-" s (fun s =>
  group_d s (fun d s => Some (mkdate y m d, s)))))).

(** [None] is [ValueError]. *)
Definition strptime (s : string) : option date :=
  match format_regex_match s with
  | Some (d, EmptyString) => if valid_date d then Some d else None
  | _ => None
  end.

End datetime.


(** ** The [sqlite3] library: tables, statements, connections *)

Module sqlite3.

(** A row of the task table, one field per column the two scripts name. *)
Record task := mktask {
  id : Z;
  title : string;
  description : option string;
  due_date : option string;
  completed : Z;
  recurrence_type : option string;
  recurrence_interval : Z;
  advance_notice_days : Z;
  created_date : string;
  completed_date : option string;
  deleted_date : option string
}.

(** A table: the columns it was created with, the counter kept for an
    [AUTOINCREMENT] key, and its rows in the order of insertion. *)
Record table := mktable {
  columns : list string;
  seq : Z;
  rows : list task
}.

(** The world: the database files by path, and the connections open. *)
Record world := mkworld {
  files : gmap string (gmap string table);
  connections : nat
}.

Inductive error :=
| no_such_table (name : string)
| no_such_column (name : string)
| table_has_no_column_named (table column : string)
| table_already_exists (name : string)
| database_or_disk_is_full.

(** SQLite stores an integer in 64 bits; binding a larger Python [int]
    raises [OverflowError]. *)
Definition int64 (z : Z) : bool := (- 2 ^ 63 <=? z) && (z <? 2 ^ 63).

(** [sqlite3.connect(path)]: the file is created when it is absent. *)
Definition connect (path : string) (w : world) : gmap string table * world :=
  (default ∅ (files w !! path),
   mkworld (files w) (S (connections w))).

(** [conn.commit()] writes the connection's tables back to the file. *)
Definition commit (path : string) (db : gmap string table) (w : world)
  : world :=
  mkworld (<[path := db]> (files w)) (connections w).

Definition close (w : world) : world :=
  mkworld (files w) (Nat.pred (connections w)).

(** Preparing a statement resolves its table and its columns. *)
Definition first_missing (cols : list string) (t : table) : option string :=
  List.find (fun c => negb (bool_decide (c ∈ columns t))) cols.

Definition prepare (name : string) (cols : list string)
  (db : gmap string table) : error + table :=
  match db !! name with
  | None => inl (no_such_table name)
  | Some t =>
      match first_missing cols t with
      | Some c => inl (no_such_column c)
      | None => inr t
      end
  end.

(** The key of a new row of a table whose key is
    [INTEGER PRIMARY KEY AUTOINCREMENT]. *)
Definition max_id (rs : list task) : Z :=
  fold_right (fun r m => Z.max (id r) m) 0 rs.

Definition next_id (t : table) : Z := Z.max (seq t) (max_id (rows t)) + 1.

(** Order of two values of a text column: [NULL] first, then the texts
    byte by byte. *)
Definition value_compare (a b : option string) : comparison :=
  match a, b with
  | None, None => Eq
  | None, Some _ => Lt
  | Some _, None => Gt
  | Some x, Some y => String.compare x y
  end.

(** [ORDER BY due_date ASC, id ASC] *)
Definition order_compare (a b : task) : comparison :=
  match value_compare (due_date a) (due_date b) with
  | Eq => id a ?= id b
  | c => c
  end.

Definition order_le (a b : task) : bool :=
  match order_compare a b with Gt => false | _ => true end.

Fixpoint insert_sorted (r : task) (rs : list task) : list task :=
  match rs with
  | [] => [r]
  | x :: rs' => if order_le r x then r :: rs else x :: insert_sorted r rs'
  end.

Definition order_by_due_date_id (rs : list task) : list task :=
  fold_right insert_sorted [] rs.

End sqlite3.

Import datetime sqlite3.

(** ** [setup_db.py] *)

Module setup_db.

Definition DB_FILE : string := "/mnt/ssd/Applications/khumbuza/schedule.db".

Definition tasks_columns : list string :=
  ["id"; "title"; "description"; "due_date"; "completed";
   "recurrence_type"; "recurrence_interval"; "advance_notice_days";
   "created_date"; "completed_date"].

Inductive outcome :=
| Created
| OperationalError (e : error).

(** [CREATE TABLE tasks (...)] *)
Definition create_table_tasks (db : gmap string table)
  : error + gmap string table :=
  match db !! "tasks" with
  | Some _ => inl (table_already_exists "tasks")
  | None => inr (<["tasks" := mktable tasks_columns 0 []]> db)
  end.

(** The exception of a failed statement leaves [setup_database] before
    [commit] and [close]. *)
Definition setup_database (w : world) : outcome * world :=
  let '(conn, w) := connect DB_FILE w in
  match create_table_tasks conn with
  | inl e => (OperationalError e, w)
  | inr conn => (Created, close (commit DB_FILE conn w))
  end.

End setup_db.

(** ** [khumbuza.py] *)

Module khumbuza.

Definition DB_FILE : string := "/mnt/ssd/Applications/khumbuza/tasks.db".

(** What a command reports: one constructor per message of the script,
    and one per exception it lets escape. *)
Inductive outcome :=
| DatabaseNotFound
| OperationalError (e : error)
| OverflowError
| InvalidDateFormat
| OnlyOneRecurrence
| ReminderNegative
| Added (task_id : Z) (title : string) (due_date : option string)
| NoTasksDue
| Tasks (results : list (Z * string * option string * option string))
| TaskNotFound (task_id : Z)
| AlreadyCompleted (task_id : Z)
| Completed (task_id : Z) (title : string)
| NotCompleted (task_id : Z)
| Removed (task_id : Z) (title : string).

Definition init_database (w : world) : bool :=
  match files w !! DB_FILE with Some _ => true | None => false end.

(** [None]: the message and [exit(1)]. *)
Definition get_db_connection (w : world)
  : option (gmap string table * world) :=
  match files w !! DB_FILE with
  | None => None
  | Some _ => Some (connect DB_FILE w)
  end.

(** The group callback runs [init_database] before every command. *)
Definition cli (command : world -> outcome * world) (w : world)
  : outcome * world :=
  if init_database w then command w else (DatabaseNotFound, w).

(** *** The statements *)

(** [INSERT INTO task (title, description, due_date, recurrence_type,
    advance_notice_days) VALUES (?, ?, ?, ?, ?)]; the other columns take
    the defaults [setup_db.py] declares for them ([completed] 0,
    [recurrence_interval] 1, [created_date] the current time) and are
    [NULL] where it declares none.  An accepted due date is never the text
    of a number, so the column keeps it as text.  The statement is
    prepared, then its values are bound, then it runs; [inl None] is the
    [OverflowError] of binding. *)
Definition insert_task (now title : string) (description due_date
  recurrence_type : option string) (advance_notice_days : Z)
  (db : gmap string table) : option error + Z * gmap string table :=
  match prepare "task"
          ["title"; "description"; "due_date"; "recurrence_type";
           "advance_notice_days"] db with
  | inl (no_such_column c) => inl (Some (table_has_no_column_named "task" c))
  | inl e => inl (Some e)
  | inr t =>
      if negb (int64 advance_notice_days) then inl None
      else if negb (int64 (next_id t)) then inl (Some database_or_disk_is_full)
      else
        let r := mktask (next_id t) title description due_date 0
                   recurrence_type 1 advance_notice_days now None None in
        inr (next_id t,
             <["task" := mktable (columns t) (next_id t) (rows t ++ [r])]> db)
  end.

Definition summary (r : task) : Z * string * option string * option string :=
  (id r, sqlite3.title r, due_date r, description r).

(** [SELECT id, title, due_date, description FROM task WHERE completed = 0
    ORDER BY due_date ASC, id ASC] *)
Definition select_incomplete (db : gmap string table)
  : error + list (Z * string * option string * option string) :=
  match prepare "task"
          ["id"; "title"; "due_date"; "description"; "completed"] db with
  | inl e => inl e
  | inr t =>
      inr (map summary
             (order_by_due_date_id
                (List.filter (fun r => completed r =? 0) (rows t))))
  end.

(** The same with [AND (due_date IS NULL OR due_date <= ?)]. *)
Definition within (cutoff_date : string) (r : task) : bool :=
  match due_date r with
  | None => true
  | Some d => String.leb d cutoff_date
  end.

Definition select_due (cutoff_date : string) (db : gmap string table)
  : error + list (Z * string * option string * option string) :=
  match prepare "task"
          ["id"; "title"; "due_date"; "description"; "completed"] db with
  | inl e => inl e
  | inr t =>
      inr (map summary
             (order_by_due_date_id
                (List.filter
                   (fun r => (completed r =? 0) && within cutoff_date r)
                   (rows t))))
  end.

(** [SELECT title, completed FROM task WHERE id = ? AND deleted_date IS
    NULL], then [fetchone()]. *)
Definition live (task_id : Z) (r : task) : bool :=
  (id r =? task_id)
  && match deleted_date r with None => true | Some _ => false end.

Definition select_title_completed (task_id : Z) (db : gmap string table)
  : option error + option (string * Z) :=
  match prepare "task" ["title"; "completed"; "id"; "deleted_date"] db with
  | inl e => inl (Some e)
  | inr t =>
      if negb (int64 task_id) then inl None
      else inr (option_map (fun r => (sqlite3.title r, completed r))
                  (List.find (live task_id) (rows t)))
  end.

Definition update_where_id (f : task -> task) (task_id : Z) (t : table)
  : table :=
  mktable (columns t) (seq t)
    (map (fun r => if id r =? task_id then f r else r) (rows t)).

(** [UPDATE task SET completed = 1, completed_date = CURRENT_TIMESTAMP
    WHERE id = ?] *)
Definition set_completed (now : string) (r : task) : task :=
  mktask (id r) (sqlite3.title r) (description r) (due_date r) 1
    (recurrence_type r) (recurrence_interval r) (advance_notice_days r)
    (created_date r) (Some now) (deleted_date r).

Definition update_completed (now : string) (task_id : Z)
  (db : gmap string table) : option error + gmap string table :=
  match prepare "task" ["completed"; "completed_date"; "id"] db with
  | inl e => inl (Some e)
  | inr t =>
      if negb (int64 task_id) then inl None
      else inr (<["task" := update_where_id (set_completed now) task_id t]> db)
  end.

(** [UPDATE task SET deleted_date = CURRENT_TIMESTAMP WHERE id = ?] *)
Definition set_deleted (now : string) (r : task) : task :=
  mktask (id r) (sqlite3.title r) (description r) (due_date r) (completed r)
    (recurrence_type r) (recurrence_interval r) (advance_notice_days r)
    (created_date r) (completed_date r) (Some now).

Definition update_deleted (now : string) (task_id : Z)
  (db : gmap string table) : option error + gmap string table :=
  match prepare "task" ["deleted_date"; "id"] db with
  | inl e => inl (Some e)
  | inr t =>
      if negb (int64 task_id) then inl None
      else inr (<["task" := update_where_id (set_deleted now) task_id t]> db)
  end.

Definition raised (e : option error) : outcome :=
  match e with Some e => OperationalError e | None => OverflowError end.

(** *** The commands *)

Definition add (now : string) (title : string) (due description
  : option string) (weekly monthly yearly : bool) (remind : option Z)
  (w : world) : outcome * world :=
  (* Parse due date if provided *)
  match (match due with
         | Some (String _ _ as s) =>
             match strptime s with
             | Some _ => Some due
             | None => None
             end
         | _ => Some None
         end) with
  | None => (InvalidDateFormat, w)
  | Some due_date =>
      (* Check only one recurrence type is set *)
      if 1 <? Z.b2z weekly + Z.b2z monthly + Z.b2z yearly
      then (OnlyOneRecurrence, w)
      else
        let recurrence_type :=
          if weekly then Some "weekly"
          else if monthly then Some "monthly"
          else if yearly then Some "yearly"
          else None in
        (* Add reminder *)
        match (match remind with
               | Some n =>
                   if n =? 0 then Some 0
                   else if n <? 0 then None else Some n
               | None => Some 0
               end) with
        | None => (ReminderNegative, w)
        | Some advance_notice_days =>
            match get_db_connection w with
            | None => (DatabaseNotFound, w)
            | Some (conn, w) =>
                match insert_task now title description due_date
                        recurrence_type advance_notice_days conn with
                | inl e => (raised e, w)
                | inr (task_id, conn) =>
                    (Added task_id title due_date,
                     close (commit DB_FILE conn w))
                end
            end
        end
  end.

Definition complete (now : string) (task_id : Z) (w : world)
  : outcome * world :=
  match get_db_connection w with
  | None => (DatabaseNotFound, w)
  | Some (conn, w) =>
      (* Check if task exists and is not already completed *)
      match select_title_completed task_id conn with
      | inl e => (raised e, w)
      | inr None => (TaskNotFound task_id, close w)
      | inr (Some (title, is_completed)) =>
          if negb (is_completed =? 0)
          then (AlreadyCompleted task_id, close w)
          else
            (* Mark as complete *)
            match update_completed now task_id conn with
            | inl e => (raised e, w)
            | inr conn =>
                (Completed task_id title, close (commit DB_FILE conn w))
            end
      end
  end.

Definition remove (now : string) (task_id : Z) (force : bool) (w : world)
  : outcome * world :=
  match get_db_connection w with
  | None => (DatabaseNotFound, w)
  | Some (conn, w) =>
      (* Check if task exists *)
      match select_title_completed task_id conn with
      | inl e => (raised e, w)
      | inr None => (TaskNotFound task_id, close w)
      | inr (Some (title, is_completed)) =>
          (* Don't delete tasks that are not completed *)
          if (is_completed =? 0) && negb force
          then (NotCompleted task_id, w)
          else
            (* Mark as deleted *)
            match update_deleted now task_id conn with
            | inl e => (raised e, w)
            | inr conn =>
                (Removed task_id title, close (commit DB_FILE conn w))
            end
      end
  end.

Definition report
  (results : Datatypes.list (Z * string * option string * option string))
  : outcome :=
  match results with [] => NoTasksDue | _ => Tasks results end.

Definition list (today : date) (days : Z) (show_all : bool) (w : world)
  : outcome * world :=
  match get_db_connection w with
  | None => (DatabaseNotFound, w)
  | Some (conn, w) =>
      if show_all then
        match select_incomplete conn with
        | inl e => (OperationalError e, w)
        | inr results => (report results, close w)
        end
      else
        match add_days today days with
        | None => (OverflowError, w)
        | Some cutoff =>
            let cutoff_date := isoformat cutoff in
            match select_due cutoff_date conn with
            | inl e => (OperationalError e, w)
            | inr results => (report results, close w)
            end
        end
  end.

End khumbuza.

(** ** The store the commands work on *)

(** Modelled from the spec: the columns of the table [task] that the
    commands name.  No [CREATE TABLE] under the sources declares this
    table; its columns are those of section 3 of the specification, that
    is the ten of [setup_db.tasks_columns] and [deleted_date], a timestamp
    that is absent until the task is removed. *)
Definition task_columns : list string :=
  ["id"; "title"; "description"; "due_date"; "completed";
   "recurrence_type"; "recurrence_interval"; "advance_notice_days";
   "created_date"; "completed_date"; "deleted_date"].

Definition task_table (w : world) : option table :=
  files w !! khumbuza.DB_FILE ≫= (.!! "task").

(** The store file exists and its table [task], which is [t], has every
    column. *)
Definition serves (w : world) (t : table) : Prop :=
  task_table w = Some t /\ first_missing task_columns t = None.

(** The world after a command has committed [t] as the table [task] and
    closed its connection. *)
Definition put_task_table (t : table) (w : world) : world :=
  mkworld
    (<[khumbuza.DB_FILE :=
         <["task" := t]> (default ∅ (files w !! khumbuza.DB_FILE))]>
       (files w))
    (connections w).

(** [id] is the primary key. *)
Definition primary_key (t : table) : Prop := NoDup (map id (rows t)).

(** A store whose table [task] is empty. *)
Definition empty_store : world :=
  mkworld {[ khumbuza.DB_FILE := {[ "task" := mktable task_columns 0 [] ]} ]}
    0.

(** The task of the scenario of the specification, and the store that
    holds it alone. *)
Definition rent : task :=
  mktask 1 "Pay rent" None (Some "2025-01-05") 0 None 1 0
    "2025-01-04 09:00:00" None None.

Definition rent_table : table := mktable task_columns 1 [rent].

Definition rent_store : world := put_task_table rent_table empty_store.

(** The rows a [list] command printed. *)
Definition listed (o : khumbuza.outcome)
  : list (Z * string * option string * option string) :=
  match o with khumbuza.Tasks results => results | _ => [] end.

(** The three messages of [add] that the specification calls
    [ValidationError]. *)
Definition validation_error (o : khumbuza.outcome) : Prop :=
  o = khumbuza.InvalidDateFormat \/ o = khumbuza.OnlyOneRecurrence
  \/ o = khumbuza.ReminderNegative.

(** The inputs [add] turns away: a due date that is given, is not the
    empty text and does not parse; two recurrence flags or more; a
    negative number of reminder days. *)
Definition bad_due (due : option string) : Prop :=
  exists s, due = Some s /\ s <> "" /\ strptime s = None.

Definition several_flags (weekly monthly yearly : bool) : Prop :=
  (weekly = true /\ monthly = true) \/ (weekly = true /\ yearly = true)
  \/ (monthly = true /\ yearly = true).

Definition negative_reminder (remind : option Z) : Prop :=
  exists n, remind = Some n /\ n < 0.

Definition rejected (due : option string) (weekly monthly yearly : bool)
  (remind : option Z) : Prop :=
  bad_due due \/ several_flags weekly monthly yearly
  \/ negative_reminder remind.

(** The due date [add] stores: the text as it was given, an empty text
    counting as none. *)
Definition stored_due (due : option string) : option string :=
  match due with Some EmptyString => None | _ => due end.

(** The order of a listing, on two of its lines: a line without a due date
    comes before every line with one; of two due dates the one whose
    text is smaller, byte by byte, comes first, whatever the dates the
    texts stand for; and on equal texts the smaller id comes first. *)
Definition before (a b : Z * string * option string * option string) : Prop :=
  let '(id_a, _, due_a, _) := a in
  let '(id_b, _, due_b, _) := b in
  match due_a, due_b with
  | None, None => id_a <= id_b
  | None, Some _ => True
  | Some _, None => False
  | Some x, Some y => String.ltb x y = true \/ (x = y /\ id_a <= id_b)
  end.

(** [r'] is [r] marked completed at [now]: nothing else differs. *)
Definition marked_completed (now : string) (r r' : task) : Prop :=
  id r' = id r /\ title r' = title r /\ description r' = description r
  /\ due_date r' = due_date r /\ recurrence_type r' = recurrence_type r
  /\ recurrence_interval r' = recurrence_interval r
  /\ advance_notice_days r' = advance_notice_days r
  /\ created_date r' = created_date r /\ deleted_date r' = deleted_date r
  /\ completed r' = 1 /\ completed_date r' = Some now.

(** [r'] is [r] marked deleted at [now]: nothing else differs. *)
Definition marked_deleted (now : string) (r r' : task) : Prop :=
  id r' = id r /\ title r' = title r /\ description r' = description r
  /\ due_date r' = due_date r /\ recurrence_type r' = recurrence_type r
  /\ recurrence_interval r' = recurrence_interval r
  /\ advance_notice_days r' = advance_notice_days r
  /\ created_date r' = created_date r /\ completed r' = completed r
  /\ completed_date r' = completed_date r /\ deleted_date r' = Some now.

(** [t'] is [t] with the rows of key [task_id] marked, the others as they
    were, in the same order. *)
Definition marks (mark : task -> task -> Prop) (task_id : Z) (t t' : table)
  : Prop :=
  columns t' = columns t /\ seq t' = seq t
  /\ Forall2 (fun r r' => if id r =? task_id then mark r r' else r' = r)
       (rows t) (rows t').

(** The order of pairs by their first parts, then by their second. *)
Definition lexicographic {A B} (cmpA : A -> A -> comparison)
  (cmpB : B -> B -> comparison) (x y : A * B) : comparison :=
  match cmpA (fst x) (fst y) with
  | Eq => cmpB (snd x) (snd y)
  | c => c
  end.

(** The rows [list] selects, before they are ordered. *)
Definition selected (cutoff : option string) (r : task) : bool :=
  (completed r =? 0)
  && match cutoff with
     | None => true
     | Some c => khumbuza.within c r
     end.

(** The store a command leaves: the table [task] is still there with its
    columns, [id] is still its key, and the keys it had are the first
    keys it has, unchanged. *)
Definition kept (t t' : table) : Prop :=
  columns t' = columns t /\ primary_key t'
  /\ exists new, map id (rows t') = (map id (rows t) ++ new)%list.

(** The command line: one of the four commands, run under the group
    callback. *)
Inductive command :=
| Add (title : string) (due description : option string)
    (weekly monthly yearly : bool) (remind : option Z)
| List (days : Z) (show_all : bool)
| Complete (task_id : Z)
| Remove (task_id : Z) (force : bool).

Definition run (now : string) (today : date) (c : command) (w : world)
  : khumbuza.outcome * world :=
  khumbuza.cli
    match c with
    | Add title due description weekly monthly yearly remind =>
        khumbuza.add now title due description weekly monthly yearly remind
    | List days show_all => khumbuza.list today days show_all
    | Complete task_id => khumbuza.complete now task_id
    | Remove task_id force => khumbuza.remove now task_id force
    end
    w.

(** ** Further definitions *)

(** A row as the commands write it: a key from 1 on; completed, with
    the date of completion, or neither; reminder days that are not
    negative; the interval 1; at most one of the three recurrences; a
    due date that is absent or parses. *)
Definition row_ok (r : task) : Prop :=
  1 <= id r
  /\ (completed r = 0 /\ completed_date r = None
      \/ completed r = 1 /\ completed_date r <> None)
  /\ 0 <= advance_notice_days r
  /\ recurrence_interval r = 1
  /\ (recurrence_type r = None \/ recurrence_type r = Some "weekly"
      \/ recurrence_type r = Some "monthly"
      \/ recurrence_type r = Some "yearly")
  /\ (due_date r = None
      \/ exists s d, due_date r = Some s /\ strptime s = Some d).

(** What a command may make of a row: what [add] stored stays, a row that
    is deleted stays as it is, and a completion stays with its date. *)
Definition ages (r r' : task) : Prop :=
  id r' = id r /\ title r' = title r /\ description r' = description r
  /\ due_date r' = due_date r /\ recurrence_type r' = recurrence_type r
  /\ recurrence_interval r' = recurrence_interval r
  /\ advance_notice_days r' = advance_notice_days r
  /\ created_date r' = created_date r
  /\ (deleted_date r <> None -> r' = r)
  /\ (completed r <> 0 ->
      completed r' = completed r /\ completed_date r' = completed_date r).

(** A sequence of command lines, each at its time and on its day. *)
Fixpoint run_all (script : list (string * date * command)) (w : world)
  : world :=
  match script with
  | [] => w
  | (now, today, c) :: script => run_all script (snd (run now today c w))
  end.

(** The keys of a table are 1, 2, 3, ... in the order of its rows, and
    its counter is the last of them. *)
Definition keys_in_sequence (t : table) : Prop :=
  map id (rows t) = map Z.of_nat (List.seq 1 (length (rows t)))
  /\ seq t = Z.of_nat (length (rows t)).

(** The outcomes that leave the connection of the command open: the
    refusal of [remove] and the exceptions. *)
Definition leaves_open (o : khumbuza.outcome) : bool :=
  match o with
  | khumbuza.NotCompleted _ | khumbuza.OverflowError
  | khumbuza.OperationalError _ => true
  | _ => false
  end.

(** The row [add] stores in the table [t]. *)
Definition added_row (t : table) (now title : string)
  (due description : option string) (weekly monthly yearly : bool)
  (remind : option Z) : task :=
  mktask (next_id t) title description (stored_due due) 0
    (if weekly then Some "weekly"
     else if monthly then Some "monthly"
     else if yearly then Some "yearly" else None)
    1 (default 0 remind) now None None.

(** A due date in the form the messages of [add] name: none, or the
    zero-padded text [YYYY-MM-DD] of a date of the calendar. *)
Definition iso_due (due : option string) : Prop :=
  due = None \/ exists d, valid_date d = true /\ due = Some (isoformat d).

(** * Properties *)

(** ** Statements on a store that serves *)

Lemma first_missing_incl (cols cols' : list string) (t : table) :
  (forall c, In c cols -> In c cols') ->
  first_missing cols' t = None -> first_missing cols t = None.
Proof.
  unfold first_missing. intros Hsub Hnone.
  destruct (List.find _ cols) as [c|] eqn:Hfind; [|reflexivity].
  apply List.find_some in Hfind as [Hin Hc].
  pose proof (List.find_none _ _ Hnone c (Hsub c Hin)) as Hf.
  simpl in Hf. rewrite Hf in Hc. discriminate.
Qed.

Lemma serves_file (w : world) (t : table) :
  serves w t ->
  exists db, files w !! khumbuza.DB_FILE = Some db /\ db !! "task" = Some t.
Proof.
  intros [Ht _]. unfold task_table in Ht.
  destruct (files w !! khumbuza.DB_FILE) as [db|] eqn:Hdb; [|discriminate].
  exists db. split; [reflexivity | exact Ht].
Qed.

Lemma serves_connection (w : world) (t : table) :
  serves w t ->
  exists db,
    khumbuza.get_db_connection w
    = Some (db, mkworld (files w) (S (connections w)))
    /\ files w !! khumbuza.DB_FILE = Some db /\ db !! "task" = Some t.
Proof.
  intros Hs. destruct (serves_file w t Hs) as (db & Hdb & Ht).
  exists db. unfold khumbuza.get_db_connection, connect.
  rewrite Hdb. simpl. auto.
Qed.

Lemma serves_prepare (w : world) (t : table) (db : gmap string table)
  (cols : list string) :
  serves w t -> db !! "task" = Some t ->
  (forall c, In c cols -> In c task_columns) ->
  prepare "task" cols db = inr t.
Proof.
  intros [_ Hcols] Ht Hsub. unfold prepare. rewrite Ht.
  rewrite (first_missing_incl cols task_columns t Hsub Hcols). reflexivity.
Qed.

Ltac columns_known :=
  let c := fresh "c" in
  let H := fresh "H" in
  intros c H; simpl in H; unfold task_columns;
  repeat (destruct H as [<-|H]; [simpl; tauto|]); destruct H.

Lemma put_after_close (w : world) (db : gmap string table) (t : table) :
  files w !! khumbuza.DB_FILE = Some db ->
  close (commit khumbuza.DB_FILE (<["task" := t]> db)
           (mkworld (files w) (S (connections w))))
  = put_task_table t w.
Proof.
  intros Hdb. unfold close, commit, put_task_table. simpl.
  rewrite Hdb. reflexivity.
Qed.

Lemma close_after_connect (w : world) :
  close (mkworld (files w) (S (connections w))) = w.
Proof. destruct w. reflexivity. Qed.

Lemma task_table_put (t : table) (w : world) :
  task_table (put_task_table t w) = Some t.
Proof.
  unfold task_table, put_task_table. simpl.
  rewrite lookup_insert_eq. simpl. apply lookup_insert_eq.
Qed.

Lemma serves_put (w : world) (t t' : table) :
  serves w t -> columns t' = columns t -> serves (put_task_table t' w) t'.
Proof.
  intros [_ Hc] Hcols. split; [apply task_table_put|].
  unfold first_missing in *. rewrite Hcols. exact Hc.
Qed.

(** ** The commands on a store that serves *)

Lemma select_title_completed_serves (w : world) (t : table)
  (db : gmap string table) (task_id : Z) :
  serves w t -> db !! "task" = Some t -> int64 task_id = true ->
  khumbuza.select_title_completed task_id db
  = inr (option_map (fun r => (title r, completed r))
           (List.find (khumbuza.live task_id) (rows t))).
Proof.
  intros Hs Ht Hid. unfold khumbuza.select_title_completed.
  rewrite (serves_prepare w t db _ Hs Ht) by columns_known.
  rewrite Hid. reflexivity.
Qed.

Lemma complete_serves (w : world) (t : table) (now : string) (task_id : Z) :
  serves w t -> int64 task_id = true ->
  khumbuza.complete now task_id w
  = match List.find (khumbuza.live task_id) (rows t) with
    | None => (khumbuza.TaskNotFound task_id, w)
    | Some r =>
        if completed r =? 0
        then (khumbuza.Completed task_id (title r),
              put_task_table
                (khumbuza.update_where_id (khumbuza.set_completed now)
                   task_id t) w)
        else (khumbuza.AlreadyCompleted task_id, w)
    end.
Proof.
  intros Hs Hid.
  destruct (serves_connection w t Hs) as (db & Hconn & Hdb & Ht).
  unfold khumbuza.complete. rewrite Hconn.
  rewrite (select_title_completed_serves w t db task_id Hs Ht Hid).
  destruct (List.find _ (rows t)) as [r|]; simpl.
  - destruct (completed r =? 0); simpl.
    + unfold khumbuza.update_completed.
      rewrite (serves_prepare w t db _ Hs Ht) by columns_known.
      rewrite Hid. simpl. rewrite (put_after_close w db _ Hdb). reflexivity.
    + rewrite close_after_connect. reflexivity.
  - rewrite close_after_connect. reflexivity.
Qed.

Lemma remove_serves (w : world) (t : table) (now : string) (task_id : Z)
  (force : bool) :
  serves w t -> int64 task_id = true ->
  khumbuza.remove now task_id force w
  = match List.find (khumbuza.live task_id) (rows t) with
    | None => (khumbuza.TaskNotFound task_id, w)
    | Some r =>
        if (completed r =? 0) && negb force
        then (khumbuza.NotCompleted task_id,
              mkworld (files w) (S (connections w)))
        else (khumbuza.Removed task_id (title r),
              put_task_table
                (khumbuza.update_where_id (khumbuza.set_deleted now)
                   task_id t) w)
    end.
Proof.
  intros Hs Hid.
  destruct (serves_connection w t Hs) as (db & Hconn & Hdb & Ht).
  unfold khumbuza.remove. rewrite Hconn.
  rewrite (select_title_completed_serves w t db task_id Hs Ht Hid).
  destruct (List.find _ (rows t)) as [r|]; simpl.
  - destruct ((completed r =? 0) && negb force); simpl.
    + reflexivity.
    + unfold khumbuza.update_deleted.
      rewrite (serves_prepare w t db _ Hs Ht) by columns_known.
      rewrite Hid. simpl. rewrite (put_after_close w db _ Hdb). reflexivity.
  - rewrite close_after_connect. reflexivity.
Qed.

Lemma list_serves (w : world) (t : table) (today : date) (days : Z)
  (show_all : bool) :
  serves w t ->
  khumbuza.list today days show_all w
  = if show_all then
      (khumbuza.report
         (map khumbuza.summary
            (order_by_due_date_id (List.filter (selected None) (rows t)))),
       w)
    else
      match add_days today days with
      | None => (khumbuza.OverflowError, mkworld (files w) (S (connections w)))
      | Some cutoff =>
          (khumbuza.report
             (map khumbuza.summary
                (order_by_due_date_id
                   (List.filter (selected (Some (isoformat cutoff)))
                      (rows t)))),
           w)
      end.
Proof.
  intros Hs.
  destruct (serves_connection w t Hs) as (db & Hconn & Hdb & Ht).
  unfold khumbuza.list. rewrite Hconn.
  unfold khumbuza.select_incomplete, khumbuza.select_due.
  rewrite (serves_prepare w t db _ Hs Ht) by columns_known.
  destruct show_all.
  - rewrite close_after_connect.
    rewrite (List.filter_ext (selected None) (fun r => completed r =? 0));
      [reflexivity|].
    intros r. unfold selected. apply andb_true_r.
  - destruct (add_days today days); [|reflexivity].
    rewrite close_after_connect. reflexivity.
Qed.

Lemma max_id_ge (rs : list task) (x : task) :
  In x rs -> id x <= max_id rs.
Proof.
  induction rs as [|r rs IH]; simpl; [tauto|].
  intros [<-|Hin]; [lia|]. specialize (IH Hin). lia.
Qed.

Lemma next_id_fresh (t : table) (x : task) :
  In x (rows t) -> id x < next_id t.
Proof.
  intros Hin. apply max_id_ge in Hin. unfold next_id. lia.
Qed.

Lemma rejected_dec (due : option string) (weekly monthly yearly : bool)
  (remind : option Z) :
  rejected due weekly monthly yearly remind
  \/ ~ rejected due weekly monthly yearly remind.
Proof.
  unfold rejected, bad_due, several_flags, negative_reminder.
  assert (Hdue : (exists s, due = Some s /\ s <> "" /\ strptime s = None)
                 \/ ~ (exists s, due = Some s /\ s <> "" /\ strptime s = None)).
  { destruct due as [[|c s]|].
    - right. intros (s & [= <-] & Hne & _). congruence.
    - destruct (strptime (String c s)) eqn:Hp.
      + right. intros (s' & [= <-] & _ & Hp'). congruence.
      + left. exists (String c s). repeat split; congruence.
    - right. intros (s & [=] & _). }
  assert (Hrem : (exists n, remind = Some n /\ n < 0)
                 \/ ~ (exists n, remind = Some n /\ n < 0)).
  { destruct remind as [n|].
    - destruct (Z_lt_dec n 0); [left; eauto|].
      right. intros (m & [= <-] & Hm). lia.
    - right. intros (m & [=] & _). }
  destruct Hdue; [tauto|]. destruct Hrem; [tauto|].
  destruct weekly, monthly, yearly; intuition congruence.
Qed.

(** What [add] does with an input it turns away, and with the others. *)
Lemma add_rejected (w : world) (now title : string)
  (due description : option string) (weekly monthly yearly : bool)
  (remind : option Z) :
  rejected due weekly monthly yearly remind ->
  validation_error
    (fst (khumbuza.add now title due description weekly monthly yearly
            remind w))
  /\ snd (khumbuza.add now title due description weekly monthly yearly
            remind w) = w.
Proof.
  unfold validation_error, khumbuza.add. intros Hrej.
  destruct due as [[|c s]|]; [| destruct (strptime (String c s)) eqn:Hp |].
  3: { simpl. auto. }
  all: destruct (1 <? Z.b2z weekly + Z.b2z monthly + Z.b2z yearly) eqn:Hf;
    [simpl; auto|].
  all: destruct remind as [n|];
    [destruct (n =? 0) eqn:H0; [|destruct (n <? 0) eqn:Hn; [simpl; auto|]]|].
  all: exfalso;
    destruct Hrej as [(s' & Hs & Hne & Hp') | [Hfl | (m & Hm & Hlt)]];
    try congruence; try discriminate.
  all: try (injection Hs as <-; congruence).
  all: try (injection Hm as <-; lia).
  all: destruct weekly, monthly, yearly; simpl in Hf; try discriminate;
    destruct Hfl as [[? ?]|[[? ?]|[? ?]]]; discriminate.
Qed.

Lemma add_not_rejected (w : world) (t : table) (now title : string)
  (due description : option string) (weekly monthly yearly : bool)
  (remind : option Z) :
  ~ rejected due weekly monthly yearly remind -> serves w t ->
  khumbuza.add now title due description weekly monthly yearly remind w
  = if negb (int64 (default 0 remind))
    then (khumbuza.OverflowError, mkworld (files w) (S (connections w)))
    else if negb (int64 (next_id t))
    then (khumbuza.OperationalError database_or_disk_is_full,
          mkworld (files w) (S (connections w)))
    else
      (khumbuza.Added (next_id t) title (stored_due due),
       put_task_table
         (mktable (columns t) (next_id t)
            (rows t
             ++ [mktask (next_id t) title description (stored_due due) 0
                   (if weekly then Some "weekly"
                    else if monthly then Some "monthly"
                    else if yearly then Some "yearly" else None)
                   1 (default 0 remind) now None None])) w).
Proof.
  intros Hacc Hs.
  destruct (serves_connection w t Hs) as (db & Hconn & Hdb & Ht).
  assert (Hflags : (1 <? Z.b2z weekly + Z.b2z monthly + Z.b2z yearly)
                   = false).
  { destruct weekly, monthly, yearly; try reflexivity; exfalso; apply Hacc;
      right; left; unfold several_flags; tauto. }
  assert (Hdue : match due with
                 | Some (String _ _ as s) =>
                     match strptime s with
                     | Some _ => Some due
                     | None => None
                     end
                 | _ => Some None
                 end = Some (stored_due due)).
  { destruct due as [[|c s]|]; try reflexivity.
    destruct (strptime (String c s)) eqn:Hp; [reflexivity|].
    exfalso. apply Hacc. left. exists (String c s).
    repeat split; congruence. }
  assert (Hrem : match remind with
                 | Some n =>
                     if n =? 0 then Some 0
                     else if n <? 0 then None else Some n
                 | None => Some 0
                 end = Some (default 0 remind)).
  { destruct remind as [n|]; [|reflexivity]. simpl.
    destruct (n =? 0) eqn:H0; [f_equal; lia|].
    destruct (n <? 0) eqn:Hn; [|reflexivity].
    exfalso. apply Hacc. right. right. exists n. split; [reflexivity|lia]. }
  unfold khumbuza.add. rewrite Hdue, Hflags, Hrem, Hconn.
  unfold khumbuza.insert_task.
  rewrite (serves_prepare w t db _ Hs Ht) by columns_known.
  destruct (int64 (default 0 remind)); [|reflexivity].
  destruct (int64 (next_id t)); [|reflexivity]. simpl.
  rewrite (put_after_close w db _ Hdb). reflexivity.
Qed.

Lemma add_accepted (w : world) (t : table) (now title : string)
  (due description : option string) (weekly monthly yearly : bool)
  (remind : option Z) :
  ~ rejected due weekly monthly yearly remind ->
  serves w t -> int64 (default 0 remind) = true ->
  int64 (next_id t) = true ->
  khumbuza.add now title due description weekly monthly yearly remind w
  = (khumbuza.Added (next_id t) title (stored_due due),
     put_task_table
       (mktable (columns t) (next_id t)
          (rows t
           ++ [mktask (next_id t) title description (stored_due due) 0
                 (if weekly then Some "weekly"
                  else if monthly then Some "monthly"
                  else if yearly then Some "yearly" else None)
                 1 (default 0 remind) now None None])) w).
Proof.
  intros Hacc Hs Hadv Hnext.
  rewrite (add_not_rejected w t now title due description weekly monthly
             yearly remind Hacc Hs), Hadv, Hnext.
  reflexivity.
Qed.

(** ** The order of a listing *)

Section Comparison.

Context {A : Type} (cmp : A -> A -> comparison).
Hypothesis cmp_eq : forall a b, cmp a b = Eq <-> a = b.
Hypothesis cmp_antisym : forall a b, cmp b a = CompOpp (cmp a b).
Hypothesis cmp_lt_trans :
  forall a b c, cmp a b = Lt -> cmp b c = Lt -> cmp a c = Lt.

Lemma cmp_le_trans (a b c : A) :
  cmp a b <> Gt -> cmp b c <> Gt -> cmp a c <> Gt.
Proof.
  intros Hab Hbc.
  destruct (cmp a b) eqn:Eab; [| |congruence].
  - apply cmp_eq in Eab. subst b. exact Hbc.
  - destruct (cmp b c) eqn:Ebc; [| |congruence].
    + apply cmp_eq in Ebc. subst c. congruence.
    + rewrite (cmp_lt_trans a b c Eab Ebc). discriminate.
Qed.

Lemma cmp_le_total (a b : A) : cmp a b = Gt -> cmp b a <> Gt.
Proof. intros Hab. rewrite cmp_antisym, Hab. discriminate. Qed.

End Comparison.

Section Lexicographic.

Context {A B : Type} (cmpA : A -> A -> comparison)
  (cmpB : B -> B -> comparison).
Hypothesis eqA : forall a b, cmpA a b = Eq <-> a = b.
Hypothesis antisymA : forall a b, cmpA b a = CompOpp (cmpA a b).
Hypothesis transA :
  forall a b c, cmpA a b = Lt -> cmpA b c = Lt -> cmpA a c = Lt.
Hypothesis eqB : forall a b, cmpB a b = Eq <-> a = b.
Hypothesis antisymB : forall a b, cmpB b a = CompOpp (cmpB a b).
Hypothesis transB :
  forall a b c, cmpB a b = Lt -> cmpB b c = Lt -> cmpB a c = Lt.

Lemma lex_eq (x y : A * B) : lexicographic cmpA cmpB x y = Eq <-> x = y.
Proof.
  unfold lexicographic. destruct x as [a b], y as [a' b']. simpl.
  destruct (cmpA a a') eqn:Ea.
  - apply eqA in Ea. subst a'. rewrite eqB. split; congruence.
  - split; [discriminate|]. intros [= <- <-].
    rewrite (proj2 (eqA a a) eq_refl) in Ea. discriminate.
  - split; [discriminate|]. intros [= <- <-].
    rewrite (proj2 (eqA a a) eq_refl) in Ea. discriminate.
Qed.

Lemma lex_antisym (x y : A * B) :
  lexicographic cmpA cmpB y x = CompOpp (lexicographic cmpA cmpB x y).
Proof.
  unfold lexicographic. rewrite (antisymA (fst x) (fst y)).
  destruct (cmpA (fst x) (fst y)); simpl; auto.
Qed.

Lemma lex_lt_trans (x y z : A * B) :
  lexicographic cmpA cmpB x y = Lt -> lexicographic cmpA cmpB y z = Lt ->
  lexicographic cmpA cmpB x z = Lt.
Proof.
  unfold lexicographic.
  destruct x as [a b], y as [a' b'], z as [a'' b'']. simpl.
  destruct (cmpA a a') eqn:E1; try discriminate;
    destruct (cmpA a' a'') eqn:E2; try discriminate; intros H1 H2.
  - apply eqA in E1, E2. subst a' a''.
    rewrite (proj2 (eqA a a) eq_refl). eauto.
  - apply eqA in E1. subst a'. rewrite E2. reflexivity.
  - apply eqA in E2. subst a''. rewrite E1. reflexivity.
  - rewrite (transA a a' a'' E1 E2). reflexivity.
Qed.

End Lexicographic.

Lemma ascii_compare_eq (x y : ascii) : Ascii.compare x y = Eq <-> x = y.
Proof.
  split; [apply Ascii.compare_eq_iff|]. intros <-.
  unfold Ascii.compare. apply N.compare_refl.
Qed.

Lemma ascii_compare_lt_trans (x y z : ascii) :
  Ascii.compare x y = Lt -> Ascii.compare y z = Lt ->
  Ascii.compare x z = Lt.
Proof.
  unfold Ascii.compare. rewrite !N.compare_lt_iff. lia.
Qed.

Lemma string_compare_eq (s1 s2 : string) :
  String.compare s1 s2 = Eq <-> s1 = s2.
Proof.
  split; [apply String.compare_eq_iff|]. intros <-.
  induction s1 as [|x s1 IH]; simpl; [reflexivity|].
  rewrite (proj2 (ascii_compare_eq x x) eq_refl). exact IH.
Qed.

Lemma string_compare_lt_trans (s1 s2 s3 : string) :
  String.compare s1 s2 = Lt -> String.compare s2 s3 = Lt ->
  String.compare s1 s3 = Lt.
Proof.
  revert s2 s3.
  induction s1 as [|x s1 IH]; intros [|y s2] [|z s3]; simpl;
    try discriminate; auto.
  destruct (Ascii.compare x y) eqn:E1; try discriminate;
    destruct (Ascii.compare y z) eqn:E2; try discriminate; intros H1 H2.
  - apply ascii_compare_eq in E1, E2. subst y z.
    rewrite (proj2 (ascii_compare_eq x x) eq_refl). eauto.
  - apply ascii_compare_eq in E1. subst y. rewrite E2. reflexivity.
  - apply ascii_compare_eq in E2. subst z. rewrite E1. reflexivity.
  - rewrite (ascii_compare_lt_trans x y z E1 E2). reflexivity.
Qed.

Lemma value_compare_eq (a b : option string) :
  value_compare a b = Eq <-> a = b.
Proof.
  destruct a as [x|], b as [y|]; simpl; try (split; congruence).
  rewrite string_compare_eq. split; congruence.
Qed.

Lemma value_compare_antisym (a b : option string) :
  value_compare b a = CompOpp (value_compare a b).
Proof.
  destruct a as [x|], b as [y|]; simpl; auto. apply String.compare_antisym.
Qed.

Lemma value_compare_lt_trans (a b c : option string) :
  value_compare a b = Lt -> value_compare b c = Lt ->
  value_compare a c = Lt.
Proof.
  destruct a as [x|], b as [y|], c as [z|]; simpl; try discriminate; auto.
  apply string_compare_lt_trans.
Qed.

Lemma Z_compare_eq (a b : Z) : (a ?= b) = Eq <-> a = b.
Proof. apply Z.compare_eq_iff. Qed.

Lemma Z_compare_lt_trans (a b c : Z) :
  (a ?= b) = Lt -> (b ?= c) = Lt -> (a ?= c) = Lt.
Proof. rewrite !Z.compare_lt_iff. lia. Qed.

Lemma order_le_trans (a b c : task) :
  order_le a b = true -> order_le b c = true -> order_le a c = true.
Proof.
  unfold order_le, order_compare. intros Hab Hbc.
  pose proof (cmp_le_trans _
                (lex_eq value_compare Z.compare value_compare_eq Z_compare_eq)
                (lex_lt_trans value_compare Z.compare value_compare_eq
                   value_compare_lt_trans Z_compare_lt_trans)
                (due_date a, id a) (due_date b, id b) (due_date c, id c))
    as Htrans.
  unfold lexicographic in Htrans. simpl in Htrans.
  destruct (match value_compare (due_date a) (due_date c) with
            | Eq => id a ?= id c
            | c0 => c0
            end) eqn:Hac; try reflexivity.
  exfalso. apply Htrans; [| |reflexivity].
  - intros H. rewrite H in Hab. discriminate.
  - intros H. rewrite H in Hbc. discriminate.
Qed.

Lemma order_le_total (a b : task) :
  order_le a b = false -> order_le b a = true.
Proof.
  unfold order_le, order_compare.
  rewrite (value_compare_antisym a.(due_date) b.(due_date)).
  rewrite (Z.compare_antisym (id a) (id b)).
  destruct (value_compare (due_date a) (due_date b)); simpl;
    try discriminate; try reflexivity.
  destruct (id a ?= id b); simpl; try discriminate; reflexivity.
Qed.

Lemma insert_sorted_In (r x : task) (rs : list task) :
  In x (insert_sorted r rs) <-> x = r \/ In x rs.
Proof.
  induction rs as [|y rs IH]; simpl.
  - intuition.
  - destruct (order_le r y); simpl; [intuition|]. rewrite IH. intuition.
Qed.

Lemma insert_sorted_sorted (r : task) (rs : list task) :
  StronglySorted (fun a b => order_le a b = true) rs ->
  StronglySorted (fun a b => order_le a b = true) (insert_sorted r rs).
Proof.
  induction 1 as [|y rs Hs IH Hall]; simpl.
  - repeat constructor.
  - destruct (order_le r y) eqn:Hry.
    + constructor; [constructor; assumption|].
      constructor; [exact Hry|].
      rewrite List.Forall_forall in *. intros z Hz.
      apply (order_le_trans r y z Hry). auto.
    + constructor; [exact IH|].
      rewrite List.Forall_forall in *. intros z Hz.
      apply insert_sorted_In in Hz as [->|Hz]; [|auto].
      apply order_le_total. exact Hry.
Qed.

Lemma order_by_sorted (rs : list task) :
  StronglySorted (fun a b => order_le a b = true) (order_by_due_date_id rs).
Proof.
  induction rs as [|r rs IH]; simpl; [constructor|].
  apply insert_sorted_sorted. exact IH.
Qed.

Lemma order_by_In (x : task) (rs : list task) :
  In x (order_by_due_date_id rs) <-> In x rs.
Proof.
  induction rs as [|r rs IH]; simpl; [tauto|].
  rewrite insert_sorted_In, IH. intuition.
Qed.

Lemma insert_sorted_length (r : task) (rs : list task) :
  length (insert_sorted r rs) = S (length rs).
Proof.
  induction rs as [|y rs IH]; simpl; [reflexivity|].
  destruct (order_le r y); simpl; [reflexivity|]. rewrite IH. reflexivity.
Qed.

Lemma order_by_length (rs : list task) :
  length (order_by_due_date_id rs) = length rs.
Proof.
  induction rs as [|r rs IH]; simpl; [reflexivity|].
  rewrite insert_sorted_length, IH. reflexivity.
Qed.

Lemma sorted_lookup {A} (R : A -> A -> Prop) (l : list A) :
  StronglySorted R l ->
  forall (i j : nat) (a b : A),
    (i < j)%nat -> l !! i = Some a -> l !! j = Some b -> R a b.
Proof.
  induction 1 as [|x l Hs IH Hall]; intros i j a b Hij Hi Hj.
  - discriminate.
  - destruct j as [|j]; [lia|]. simpl in Hj. destruct i as [|i].
    + simpl in Hi. injection Hi as <-.
      rewrite List.Forall_forall in Hall. apply Hall.
      apply list_elem_of_In. apply (list_elem_of_lookup_2 _ j). exact Hj.
    + simpl in Hi. apply (IH i j); [lia|assumption..].
Qed.

Lemma order_le_before (a b : task) :
  order_le a b = true -> before (khumbuza.summary a) (khumbuza.summary b).
Proof.
  unfold order_le, order_compare, before, khumbuza.summary, value_compare.
  destruct (due_date a) as [x|], (due_date b) as [y|]; try discriminate;
    auto.
  - unfold String.ltb. destruct (String.compare x y) eqn:Hxy.
    + apply String.compare_eq_iff in Hxy. subst y.
      destruct (Z.compare_spec (id a) (id b)); try discriminate; intros _;
        right; (split; [reflexivity|lia]).
    + auto.
    + discriminate.
  - destruct (Z.compare_spec (id a) (id b)); try discriminate; intros _; lia.
Qed.

(** Whatever the world, what [list] prints is an ordered selection of rows. *)
Lemma listed_is_ordered_selection (w : world) (today : date) (days : Z)
  (show_all : bool) :
  exists rs,
    listed (fst (khumbuza.list today days show_all w))
    = map khumbuza.summary (order_by_due_date_id rs).
Proof.
  assert (Hrep : forall results, listed (khumbuza.report results) = results).
  { intros [|x results]; reflexivity. }
  assert (Hnil : exists rs : list task,
             [] = map khumbuza.summary (order_by_due_date_id rs)).
  { exists []. reflexivity. }
  unfold khumbuza.list.
  destruct (khumbuza.get_db_connection w) as [[conn w']|]; [|exact Hnil].
  unfold khumbuza.select_incomplete, khumbuza.select_due.
  destruct show_all.
  - destruct (prepare _ _ conn) as [e|t]; [exact Hnil|].
    simpl. rewrite Hrep. eauto.
  - destruct (add_days today days) as [cutoff|]; [|exact Hnil].
    destruct (prepare _ _ conn) as [e|t]; [exact Hnil|].
    simpl. rewrite Hrep. eauto.
Qed.

Lemma listed_in_order (w : world) (today : date) (days : Z)
  (show_all : bool) (i j : nat)
  (a b : Z * string * option string * option string) :
  (i < j)%nat ->
  listed (fst (khumbuza.list today days show_all w)) !! i = Some a ->
  listed (fst (khumbuza.list today days show_all w)) !! j = Some b ->
  before a b.
Proof.
  intros Hij Hi Hj.
  destruct (listed_is_ordered_selection w today days show_all) as [rs Hrs].
  rewrite Hrs in Hi, Hj. rewrite list_lookup_fmap in Hi, Hj.
  destruct (order_by_due_date_id rs !! i) as [ra|] eqn:Hra; [|discriminate].
  destruct (order_by_due_date_id rs !! j) as [rb|] eqn:Hrb; [|discriminate].
  injection Hi as <-. injection Hj as <-.
  apply order_le_before.
  exact (sorted_lookup _ _ (order_by_sorted rs) i j ra rb Hij Hra Hrb).
Qed.

(** X18: in every listing, a line that comes earlier is [before] a line
    that comes later: lines without a due date precede all lines with
    one, the texts of the due dates ascend byte by byte, and equal texts
    are in ascending order of id.  Conversely, of two lines the one that
    is strictly [before] the other comes earlier. *)
Theorem list_is_ordered (w : world) (today : date) (days : Z)
  (show_all : bool) (i j : nat)
  (a b : Z * string * option string * option string) :
  listed (fst (khumbuza.list today days show_all w)) !! i = Some a ->
  listed (fst (khumbuza.list today days show_all w)) !! j = Some b ->
  ((i < j)%nat -> before a b)
  /\ (before a b -> ~ before b a -> (i < j)%nat).
Proof.
  intros Hi Hj. split.
  - intros Hij. exact (listed_in_order w today days show_all i j a b Hij Hi Hj).
  - intros Hab Hba. destruct (Nat.lt_trichotomy i j) as [Hlt|[Heq|Hgt]].
    + exact Hlt.
    + subst j. rewrite Hi in Hj. injection Hj as <-. contradiction.
    + exfalso. apply Hba.
      exact (listed_in_order w today days show_all j i b a Hgt Hj Hi).
Qed.

(** ** Looking a task up by its key *)

Lemma find_live_absent (task_id : Z) (rs : list task) :
  (forall r, In r rs -> id r = task_id -> deleted_date r <> None) ->
  List.find (khumbuza.live task_id) rs = None.
Proof.
  intros Habs. destruct (List.find _ rs) as [r|] eqn:Hfind; [|reflexivity].
  apply List.find_some in Hfind as [Hin Hlive].
  unfold khumbuza.live in Hlive. apply andb_true_iff in Hlive as [Hid Hdel].
  apply Z.eqb_eq in Hid. specialize (Habs r Hin Hid).
  destruct (deleted_date r); [discriminate|congruence].
Qed.

Lemma find_live_present (task_id : Z) (rs : list task) (r : task) :
  NoDup (map id rs) -> In r rs -> id r = task_id ->
  deleted_date r = None ->
  List.find (khumbuza.live task_id) rs = Some r.
Proof.
  intros Hkey Hin Hid Hdel.
  induction rs as [|x rs IH]; [destruct Hin|]. simpl in *.
  apply NoDup_cons in Hkey as [Hx Hkey].
  destruct Hin as [->|Hin].
  - unfold khumbuza.live. rewrite Hid, Z.eqb_refl, Hdel. reflexivity.
  - assert (Hne : id x <> task_id).
    { intros Heq. apply Hx. apply list_elem_of_In. rewrite Heq, <- Hid.
      apply List.in_map. exact Hin. }
    unfold khumbuza.live at 1. apply Z.eqb_neq in Hne. rewrite Hne. simpl.
    apply IH; assumption.
Qed.

Lemma find_app_none {A} (f : A -> bool) (l l' : list A) :
  List.find f l = None -> List.find f (l ++ l') = List.find f l'.
Proof.
  induction l as [|x l IH]; simpl; [reflexivity|].
  destruct (f x); [discriminate|exact IH].
Qed.

Lemma find_live_update (f : task -> task) (task_id : Z) (rs : list task) :
  (forall r, id (f r) = id r) ->
  (forall r, deleted_date (f r) = deleted_date r) ->
  List.find (khumbuza.live task_id)
    (map (fun r => if id r =? task_id then f r else r) rs)
  = option_map f (List.find (khumbuza.live task_id) rs).
Proof.
  intros Hid Hdel. induction rs as [|x rs IH]; [reflexivity|]. simpl.
  unfold khumbuza.live at 1 3.
  destruct (id x =? task_id) eqn:Hx.
  - rewrite Hid, Hdel, Hx. simpl.
    destruct (deleted_date x); [exact IH|reflexivity].
  - rewrite Hx. simpl. exact IH.
Qed.

Lemma find_live_deleted (now : string) (task_id : Z) (rs : list task) :
  List.find (khumbuza.live task_id)
    (map (fun r => if id r =? task_id then khumbuza.set_deleted now r else r)
       rs)
  = None.
Proof.
  induction rs as [|x rs IH]; [reflexivity|]. simpl.
  unfold khumbuza.live at 1.
  destruct (id x =? task_id) eqn:Hx; simpl.
  - rewrite Hx. simpl. exact IH.
  - rewrite Hx. simpl. exact IH.
Qed.

Lemma update_marks (f : task -> task) (mark : task -> task -> Prop)
  (task_id : Z) (t : table) :
  (forall r, mark r (f r)) ->
  marks mark task_id t (khumbuza.update_where_id f task_id t).
Proof.
  intros Hmark. unfold marks, khumbuza.update_where_id. simpl.
  repeat split. induction (rows t) as [|x rs IH]; simpl; constructor; auto.
  destruct (id x =? task_id); auto.
Qed.

Lemma set_completed_marks (now : string) (r : task) :
  marked_completed now r (khumbuza.set_completed now r).
Proof. unfold marked_completed. simpl. tauto. Qed.

Lemma set_deleted_marks (now : string) (r : task) :
  marked_deleted now r (khumbuza.set_deleted now r).
Proof. unfold marked_deleted. simpl. tauto. Qed.

(** ** [complete] *)

(** C6, as the code has it: on a store that serves, [complete task_id]
    with an id beyond the 64 bits of an integer of SQLite ends on
    [OverflowError] with its connection open and nothing changed.  With
    an id within them, it reports that the task
    is not found when no row with that key is free of a deletion date;
    reports that it is already completed, and changes nothing, when the
    row is completed; otherwise it marks the row completed at the
    current time, reports the title, and a later [complete] of the same
    key is turned away as already completed.  The last part is the case
    of a task that [add] has just stored. *)
Theorem complete_contract (w : world) (t : table) (now : string)
  (task_id : Z) :
  serves w t -> primary_key t ->
  (int64 task_id = false ->
   khumbuza.complete now task_id w
   = (khumbuza.OverflowError, mkworld (files w) (S (connections w))))
  /\ (int64 task_id = true ->
      ((forall r, In r (rows t) -> id r = task_id -> deleted_date r <> None) ->
       khumbuza.complete now task_id w = (khumbuza.TaskNotFound task_id, w))
      /\ (forall r,
            In r (rows t) -> id r = task_id -> deleted_date r = None ->
            completed r <> 0 ->
            khumbuza.complete now task_id w
            = (khumbuza.AlreadyCompleted task_id, w))
      /\ (forall r,
            In r (rows t) -> id r = task_id -> deleted_date r = None ->
            completed r = 0 ->
            exists t',
              khumbuza.complete now task_id w
              = (khumbuza.Completed task_id (title r), put_task_table t' w)
              /\ marks (marked_completed now) task_id t t'
              /\ forall later,
                   khumbuza.complete later task_id (put_task_table t' w)
                   = (khumbuza.AlreadyCompleted task_id, put_task_table t' w))
      /\ (forall title due description weekly monthly yearly remind,
            ~ rejected due weekly monthly yearly remind ->
            int64 (default 0 remind) = true -> int64 (next_id t) = true ->
            task_id = next_id t ->
            exists w1 w2,
              khumbuza.add now title due description weekly monthly yearly
                remind w
              = (khumbuza.Added task_id title (stored_due due), w1)
              /\ khumbuza.complete now task_id w1
                 = (khumbuza.Completed task_id title, w2)
              /\ khumbuza.complete now task_id w2
                 = (khumbuza.AlreadyCompleted task_id, w2))).
Proof.
  intros Hs Hkey. split.
  { intros Hid. destruct (serves_connection w t Hs) as (db & Hconn & _ & Ht).
    unfold khumbuza.complete, khumbuza.select_title_completed.
    rewrite Hconn. rewrite (serves_prepare w t db _ Hs Ht) by columns_known.
    rewrite Hid. reflexivity. }
  intros Hid.
  assert (Hsecond : forall (w0 : world) (t0 : table) (r : task) later,
             serves w0 t0 ->
             List.find (khumbuza.live task_id) (rows t0) = Some r ->
             completed r = 0 ->
             khumbuza.complete now task_id w0
             = (khumbuza.Completed task_id (sqlite3.title r),
                put_task_table
                  (khumbuza.update_where_id (khumbuza.set_completed now)
                     task_id t0) w0)
             /\ khumbuza.complete later task_id
                  (put_task_table
                     (khumbuza.update_where_id (khumbuza.set_completed now)
                        task_id t0) w0)
                = (khumbuza.AlreadyCompleted task_id,
                   put_task_table
                     (khumbuza.update_where_id (khumbuza.set_completed now)
                        task_id t0) w0)).
  { intros w0 t0 r later Hs0 Hfind Hc. split.
    - rewrite (complete_serves w0 t0 now task_id Hs0 Hid), Hfind, Hc.
      reflexivity.
    - rewrite (complete_serves _
                 (khumbuza.update_where_id (khumbuza.set_completed now)
                    task_id t0) later task_id);
        [|apply (serves_put w0 t0); [exact Hs0|reflexivity] | exact Hid].
      simpl. rewrite find_live_update by reflexivity.
      rewrite Hfind. reflexivity. }
  repeat split.
  - intros Habs. rewrite (complete_serves w t now task_id Hs Hid).
    rewrite (find_live_absent task_id (rows t) Habs). reflexivity.
  - intros r Hin Hr Hdel Hc.
    rewrite (complete_serves w t now task_id Hs Hid).
    rewrite (find_live_present task_id (rows t) r Hkey Hin Hr Hdel).
    apply Z.eqb_neq in Hc. rewrite Hc. reflexivity.
  - intros r Hin Hr Hdel Hc.
    exists (khumbuza.update_where_id (khumbuza.set_completed now) task_id t).
    pose proof (find_live_present task_id (rows t) r Hkey Hin Hr Hdel)
      as Hfind.
    split; [|split].
    + apply (Hsecond w t r now Hs Hfind Hc).
    + apply update_marks. apply set_completed_marks.
    + intros later. apply (Hsecond w t r later Hs Hfind Hc).
  - intros title due description weekly monthly yearly remind Hacc Hadv
      Hnext ->.
    rewrite (add_accepted w t now title due description weekly monthly
               yearly remind Hacc Hs Hadv Hnext).
    set (r := mktask (next_id t) title description (stored_due due) 0
                (if weekly then Some "weekly"
                 else if monthly then Some "monthly"
                 else if yearly then Some "yearly" else None)
                1 (default 0 remind) now None None).
    set (t1 := mktable (columns t) (next_id t) (rows t ++ [r])).
    assert (Hfind : List.find (khumbuza.live (next_id t)) (rows t1) = Some r).
    { simpl. rewrite find_app_none.
      - simpl. unfold khumbuza.live. simpl. rewrite Z.eqb_refl. reflexivity.
      - apply find_live_absent.
        intros x Hin Hx. apply next_id_fresh in Hin. lia. }
    assert (Hs1 : serves (put_task_table t1 w) t1).
    { apply (serves_put w t); [exact Hs|reflexivity]. }
    destruct (Hsecond (put_task_table t1 w) t1 r now Hs1 Hfind eq_refl)
      as [Hfirst Hagain].
    eexists. eexists. split; [reflexivity|]. split; [exact Hfirst|].
    exact Hagain.
Qed.

(** ** [remove] *)

(** C7: on a store that serves, for a task that is not deleted,
    [remove task_id] without [force] turns an incomplete task away as not
    completed and leaves every file as it was; for a completed task, or
    with [force], it marks the row deleted at the current time and
    reports the title. *)
Theorem remove_contract (w : world) (t : table) (now : string)
  (task_id : Z) (force : bool) (r : task) :
  serves w t -> primary_key t -> int64 task_id = true ->
  In r (rows t) -> id r = task_id -> deleted_date r = None ->
  (completed r = 0 -> force = false ->
   fst (khumbuza.remove now task_id force w) = khumbuza.NotCompleted task_id
   /\ files (snd (khumbuza.remove now task_id force w)) = files w)
  /\ (completed r <> 0 \/ force = true ->
      exists t',
        khumbuza.remove now task_id force w
        = (khumbuza.Removed task_id (title r), put_task_table t' w)
        /\ marks (marked_deleted now) task_id t t').
Proof.
  intros Hs Hkey Hid Hin Hr Hdel.
  rewrite (remove_serves w t now task_id force Hs Hid).
  rewrite (find_live_present task_id (rows t) r Hkey Hin Hr Hdel).
  split.
  - intros -> ->. simpl. auto.
  - intros Hdo.
    assert (Hcond : (completed r =? 0) && negb force = false).
    { destruct Hdo as [Hc | ->].
      - apply Z.eqb_neq in Hc. rewrite Hc. reflexivity.
      - apply andb_false_r. }
    rewrite Hcond. eexists. split; [reflexivity|].
    apply update_marks. apply set_deleted_marks.
Qed.

(** X17: Once [remove] has succeeded, [complete] and [remove] no longer find
    the task. *)
Lemma removed_is_not_found (w : world) (t : table) (now later : string)
  (task_id : Z) (force force' : bool) (title : string) (w' : world) :
  serves w t ->
  khumbuza.remove now task_id force w = (khumbuza.Removed task_id title, w') ->
  khumbuza.complete later task_id w' = (khumbuza.TaskNotFound task_id, w')
  /\ khumbuza.remove later task_id force' w'
     = (khumbuza.TaskNotFound task_id, w').
Proof.
  intros Hs Hrem.
  destruct (int64 task_id) eqn:Hid.
  - rewrite (remove_serves w t now task_id force Hs Hid) in Hrem.
    destruct (List.find _ (rows t)) as [r|]; [|discriminate].
    destruct ((completed r =? 0) && negb force); [discriminate|].
    injection Hrem as _ <-.
    assert (Hs' : serves
                    (put_task_table
                       (khumbuza.update_where_id (khumbuza.set_deleted now)
                          task_id t) w)
                    (khumbuza.update_where_id (khumbuza.set_deleted now)
                       task_id t)).
    { apply (serves_put w t); [exact Hs|reflexivity]. }
    rewrite (complete_serves _ _ later task_id Hs' Hid).
    rewrite (remove_serves _ _ later task_id force' Hs' Hid).
    simpl. rewrite find_live_deleted. auto.
  - exfalso.
    destruct (serves_connection w t Hs) as (db & Hconn & Hdb & Ht).
    unfold khumbuza.remove in Hrem. rewrite Hconn in Hrem.
    unfold khumbuza.select_title_completed in Hrem.
    rewrite (serves_prepare w t db _ Hs Ht) in Hrem by columns_known.
    rewrite Hid in Hrem. discriminate.
Qed.

(** A listing does not look at the deletion date of a row. *)
Lemma selected_set_deleted (cutoff : option string) (now : string)
  (r : task) :
  selected cutoff (khumbuza.set_deleted now r) = selected cutoff r.
Proof. reflexivity. Qed.

(** ** [add] *)

(** [add] reports a validation error exactly on the inputs it turns
    away. *)
Lemma add_validation_iff (w : world) (now title : string)
  (due description : option string) (weekly monthly yearly : bool)
  (remind : option Z) :
  validation_error
    (fst (khumbuza.add now title due description weekly monthly yearly
            remind w))
  <-> rejected due weekly monthly yearly remind.
Proof.
  split; [|apply add_rejected].
  intros Hval.
  destruct (rejected_dec due weekly monthly yearly remind) as [|Hacc];
    [assumption|exfalso].
  assert (Hflags : (1 <? Z.b2z weekly + Z.b2z monthly + Z.b2z yearly)
                   = false).
  { destruct weekly, monthly, yearly; try reflexivity; exfalso; apply Hacc;
      right; left; unfold several_flags; tauto. }
  unfold validation_error, khumbuza.add in Hval. rewrite Hflags in Hval.
  destruct due as [[|c s]|]; [| destruct (strptime (String c s)) eqn:Hp |].
  3: { apply Hacc. left. exists (String c s). repeat split; congruence. }
  all: destruct remind as [n|];
    [destruct (n =? 0) eqn:H0; [|destruct (n <? 0) eqn:Hn]|].
  all: try (apply Hacc; right; right; exists n; split; [reflexivity|lia]).
  all: destruct (khumbuza.get_db_connection w) as [[conn w']|];
    [destruct (khumbuza.insert_task _ _ _ _ _ _ conn) as [[e|]|[i c']]|];
    simpl in Hval; intuition discriminate.
Qed.

(** ** A removed task in later commands *)

(** In any store that serves, an incomplete task removed with [force] is
    a line of the next listing of all tasks. *)
Lemma force_removed_is_listed (w : world) (t : table) (now : string)
  (today : date) (days : Z) (task_id : Z) (r : task) :
  serves w t -> primary_key t -> int64 task_id = true ->
  In r (rows t) -> id r = task_id -> deleted_date r = None ->
  completed r = 0 ->
  In (khumbuza.summary r)
    (listed
       (fst (khumbuza.list today days true
               (snd (khumbuza.remove now task_id true w))))).
Proof.
  intros Hs Hkey Hid Hin Hr Hdel Hc.
  rewrite (remove_serves w t now task_id true Hs Hid).
  rewrite (find_live_present task_id (rows t) r Hkey Hin Hr Hdel).
  rewrite andb_false_r. simpl snd.
  rewrite (list_serves _
             (khumbuza.update_where_id (khumbuza.set_deleted now) task_id t))
    by (apply (serves_put w t); [exact Hs|reflexivity]).
  simpl fst.
  assert (Hrep : forall results, listed (khumbuza.report results) = results).
  { intros [|x results]; reflexivity. }
  rewrite Hrep.
  change (khumbuza.summary r)
    with (khumbuza.summary (khumbuza.set_deleted now r)).
  apply List.in_map. apply order_by_In. apply List.filter_In. split.
  - simpl. apply List.in_map_iff. exists r. rewrite Hr, Z.eqb_refl. auto.
  - unfold selected. simpl. rewrite Hc. reflexivity.
Qed.

(** C1, at a task added to an empty store and removed with [force]:
    [remove] succeeds, [complete] and [remove] no longer find the task,
    and both forms of [list] still print it. *)
Theorem removed_task_is_still_listed :
  let w1 :=
    snd (khumbuza.add "2025-01-04 09:00:00" "x" None None false false false
           None empty_store) in
  let w2 := snd (khumbuza.remove "2025-01-04 09:05:00" 1 true w1) in
  fst (khumbuza.remove "2025-01-04 09:05:00" 1 true w1)
  = khumbuza.Removed 1 "x"
  /\ khumbuza.complete "2025-01-04 09:10:00" 1 w2
     = (khumbuza.TaskNotFound 1, w2)
  /\ khumbuza.remove "2025-01-04 09:10:00" 1 true w2
     = (khumbuza.TaskNotFound 1, w2)
  /\ fst (khumbuza.list (mkdate 2025 1 4) 30 true w2)
     = khumbuza.Tasks [(1, "x", None, None)]
  /\ fst (khumbuza.list (mkdate 2025 1 4) 30 false w2)
     = khumbuza.Tasks [(1, "x", None, None)].
Proof. vm_compute. repeat split; reflexivity. Qed.

(** ** Connections *)

(** On a store that serves, [complete] closes the connection it opened. *)
Lemma complete_closes (w : world) (t : table) (now : string) (task_id : Z) :
  serves w t -> int64 task_id = true ->
  connections (snd (khumbuza.complete now task_id w)) = connections w.
Proof.
  intros Hs Hid. rewrite (complete_serves w t now task_id Hs Hid).
  destruct (List.find _ (rows t)) as [r|]; [|reflexivity].
  destruct (completed r =? 0); reflexivity.
Qed.

(** [remove] closes it on every path but one, the refusal of an
    incomplete task. *)
Lemma remove_closes_unless_refused (w : world) (t : table) (now : string)
  (task_id : Z) (force : bool) :
  serves w t -> int64 task_id = true ->
  connections (snd (khumbuza.remove now task_id force w))
  = match fst (khumbuza.remove now task_id force w) with
    | khumbuza.NotCompleted _ => S (connections w)
    | _ => connections w
    end.
Proof.
  intros Hs Hid. rewrite (remove_serves w t now task_id force Hs Hid).
  destruct (List.find _ (rows t)) as [r|]; [|reflexivity].
  destruct ((completed r =? 0) && negb force); reflexivity.
Qed.

(** C3, at an incomplete task removed without [force]: the command ends
    with the connection it opened still open, where its other early exit
    and both early exits of [complete] close theirs. *)
Theorem remove_refusal_leaves_connection_open :
  let w1 :=
    snd (khumbuza.add "2025-01-04 09:00:00" "x" None None false false false
           None empty_store) in
  connections w1 = 0%nat
  /\ fst (khumbuza.remove "2025-01-04 09:05:00" 1 false w1)
     = khumbuza.NotCompleted 1
  /\ connections (snd (khumbuza.remove "2025-01-04 09:05:00" 1 false w1))
     = 1%nat
  /\ connections (snd (khumbuza.remove "2025-01-04 09:05:00" 2 false w1))
     = 0%nat
  /\ connections (snd (khumbuza.complete "2025-01-04 09:05:00" 2 w1))
     = 0%nat.
Proof. vm_compute. repeat split; reflexivity. Qed.

(** ** What every command keeps *)

Lemma serves_files (w w' : world) (t : table) :
  files w' = files w -> serves w t -> serves w' t.
Proof.
  unfold serves, task_table. intros ->. tauto.
Qed.

Lemma serves_init (w : world) (t : table) :
  serves w t -> khumbuza.init_database w = true.
Proof.
  intros Hs. destruct (serves_file w t Hs) as (db & Hdb & _).
  unfold khumbuza.init_database. rewrite Hdb. reflexivity.
Qed.

Lemma overflow_serves (w : world) (t : table) (task_id : Z) :
  serves w t -> int64 task_id = false ->
  forall db,
    db !! "task" = Some t ->
    khumbuza.select_title_completed task_id db = inl None.
Proof.
  intros Hs Hid db Ht. unfold khumbuza.select_title_completed.
  rewrite (serves_prepare w t db _ Hs Ht) by columns_known.
  rewrite Hid. reflexivity.
Qed.

Lemma update_keeps_ids (f : task -> task) (task_id : Z) (t : table) :
  (forall r, id (f r) = id r) ->
  map id (rows (khumbuza.update_where_id f task_id t)) = map id (rows t).
Proof.
  intros Hf. simpl. rewrite List.map_map. apply List.map_ext.
  intros r. destruct (id r =? task_id); [apply Hf|reflexivity].
Qed.

Lemma append_keeps_key (t : table) (r : task) :
  primary_key t -> id r = next_id t ->
  primary_key (mktable (columns t) (id r) (rows t ++ [r])).
Proof.
  unfold primary_key. simpl. intros Hkey Hr. rewrite List.map_app. simpl.
  apply NoDup_app. split; [exact Hkey|]. split.
  - intros x Hx Hx'. apply list_elem_of_singleton in Hx'. subst x.
    apply list_elem_of_In, List.in_map_iff in Hx as (y & Hy & Hin).
    apply next_id_fresh in Hin. lia.
  - apply NoDup_singleton.
Qed.

Lemma kept_refl (t : table) : primary_key t -> kept t t.
Proof.
  intros Hkey. split; [reflexivity|]. split; [exact Hkey|].
  exists []. symmetry. apply List.app_nil_r.
Qed.

Lemma kept_update (f : task -> task) (task_id : Z) (t : table) :
  (forall r, id (f r) = id r) -> primary_key t ->
  kept t (khumbuza.update_where_id f task_id t).
Proof.
  intros Hf Hkey. split; [reflexivity|]. unfold primary_key.
  rewrite (update_keeps_ids f task_id t Hf). split; [exact Hkey|].
  exists []. symmetry. apply List.app_nil_r.
Qed.

(** X1: Whatever the command and whatever it reports, a store that serves
    still serves afterwards, [id] is still the key, and no key that was
    assigned has gone or changed. *)
Theorem run_keeps_store (now : string) (today : date) (c : command)
  (w : world) (t : table) :
  serves w t -> primary_key t ->
  exists t', serves (snd (run now today c w)) t' /\ kept t t'.
Proof.
  intros Hs Hkey.
  assert (Hsame : forall p : khumbuza.outcome * world,
             files (snd p) = files w ->
             exists t', serves (snd p) t' /\ kept t t').
  { intros p Hp. exists t. split; [|apply kept_refl; exact Hkey].
    apply (serves_files w); assumption. }
  assert (Hput : forall (o : khumbuza.outcome) t',
             kept t t' ->
             exists t'', serves (snd (o, put_task_table t' w)) t''
                         /\ kept t t'').
  { intros o t' Hk. exists t'. split; [|exact Hk].
    apply (serves_put w t); [exact Hs|apply Hk]. }
  destruct (serves_connection w t Hs) as (db & Hconn & Hdb & Ht).
  unfold run, khumbuza.cli. rewrite (serves_init w t Hs).
  destruct c as [title due description weekly monthly yearly remind
                | days show_all | task_id | task_id force].
  - destruct (rejected_dec due weekly monthly yearly remind) as [Hrej|Hacc].
    + apply Hsame.
      rewrite (proj2 (add_rejected w now title due description weekly
                        monthly yearly remind Hrej)).
      reflexivity.
    + rewrite (add_not_rejected w t now title due description weekly
                 monthly yearly remind Hacc Hs).
      destruct (int64 (default 0 remind)); [|apply Hsame; reflexivity].
      destruct (int64 (next_id t)); [|apply Hsame; reflexivity].
      apply Hput. split; [reflexivity|]. split.
      * apply (append_keeps_key t (mktask _ _ _ _ _ _ _ _ _ _ _));
          [exact Hkey|reflexivity].
      * simpl. rewrite List.map_app. eauto.
  - rewrite (list_serves w t today days show_all Hs).
    destruct show_all; [apply Hsame; reflexivity|].
    destruct (add_days today days); apply Hsame; reflexivity.
  - destruct (int64 task_id) eqn:Hid.
    + rewrite (complete_serves w t now task_id Hs Hid).
      destruct (List.find _ (rows t)) as [r|]; [|apply Hsame; reflexivity].
      destruct (completed r =? 0); [|apply Hsame; reflexivity].
      apply Hput. apply kept_update; [reflexivity|exact Hkey].
    + apply Hsame. unfold khumbuza.complete. rewrite Hconn.
      rewrite (overflow_serves w t task_id Hs Hid db Ht). reflexivity.
  - destruct (int64 task_id) eqn:Hid.
    + rewrite (remove_serves w t now task_id force Hs Hid).
      destruct (List.find _ (rows t)) as [r|]; [|apply Hsame; reflexivity].
      destruct ((completed r =? 0) && negb force);
        [apply Hsame; reflexivity|].
      apply Hput. apply kept_update; [reflexivity|exact Hkey].
    + apply Hsame. unfold khumbuza.remove. rewrite Hconn.
      rewrite (overflow_serves w t task_id Hs Hid db Ht). reflexivity.
Qed.

Lemma empty_store_serves :
  serves empty_store (mktable task_columns 0 [])
  /\ primary_key (mktable task_columns 0 []).
Proof.
  split; [split; vm_compute; reflexivity|]. apply NoDup_nil_2.
Qed.

(** ** The scenario of the specification *)

Example add_pay_rent :
  khumbuza.add "2025-01-04 09:00:00" "Pay rent" (Some "2025-01-05") None
    false false false None empty_store
  = (khumbuza.Added 1 "Pay rent" (Some "2025-01-05"), rent_store).
Proof. vm_compute. reflexivity. Qed.

Lemma rent_store_serves : serves rent_store rent_table.
Proof. split; vm_compute; reflexivity. Qed.

Lemma rent_table_key : primary_key rent_table.
Proof.
  unfold primary_key. simpl. apply NoDup_cons. split; [|apply NoDup_nil_2].
  apply not_elem_of_nil.
Qed.

Lemma complete_contract_witness :
  exists t',
    khumbuza.complete "2025-01-06 10:00:00" 1 rent_store
    = (khumbuza.Completed 1 "Pay rent", put_task_table t' rent_store)
    /\ marks (marked_completed "2025-01-06 10:00:00") 1 rent_table t'
    /\ forall later,
         khumbuza.complete later 1 (put_task_table t' rent_store)
         = (khumbuza.AlreadyCompleted 1, put_task_table t' rent_store).
Proof.
  destruct (complete_contract rent_store rent_table "2025-01-06 10:00:00" 1
              rent_store_serves rent_table_key)
    as (_ & Hin).
  destruct (Hin eq_refl) as (_ & _ & Hdo & _).
  apply (Hdo rent).
  - simpl. auto.
  - reflexivity.
  - reflexivity.
  - reflexivity.
Defined.

Lemma remove_contract_witness :
  (fst (khumbuza.remove "2025-01-06 10:00:00" 1 false rent_store)
   = khumbuza.NotCompleted 1
   /\ files (snd (khumbuza.remove "2025-01-06 10:00:00" 1 false rent_store))
      = files rent_store)
  /\ exists t',
       khumbuza.remove "2025-01-06 10:00:00" 1 true rent_store
       = (khumbuza.Removed 1 "Pay rent", put_task_table t' rent_store)
       /\ marks (marked_deleted "2025-01-06 10:00:00") 1 rent_table t'.
Proof.
  split.
  - apply (remove_contract rent_store rent_table "2025-01-06 10:00:00" 1
             false rent rent_store_serves rent_table_key eq_refl);
      simpl; auto.
  - apply (remove_contract rent_store rent_table "2025-01-06 10:00:00" 1
             true rent rent_store_serves rent_table_key eq_refl);
      simpl; auto.
Defined.

Lemma list_is_ordered_witness :
  let w :=
    snd (khumbuza.add "2025-01-04 09:02:00" "undated" None None false false
           false None
           (snd (khumbuza.add "2025-01-04 09:01:00" "sooner"
                   (Some "2025-01-02") None false false false None
                   rent_store))) in
  listed (fst (khumbuza.list (mkdate 2025 1 4) 30 false w))
  = [(3, "undated", None, None); (2, "sooner", Some "2025-01-02", None);
     (1, "Pay rent", Some "2025-01-05", None)]
  /\ before (3, "undated", None, None)
       (2, "sooner", Some "2025-01-02", None)
  /\ before (2, "sooner", Some "2025-01-02", None)
       (1, "Pay rent", Some "2025-01-05", None).
Proof.
  intros w. split; [vm_compute; reflexivity|]. split.
  - apply (list_is_ordered w (mkdate 2025 1 4) 30 false 0 1);
      [vm_compute; reflexivity | vm_compute; reflexivity | lia].
  - apply (list_is_ordered w (mkdate 2025 1 4) 30 false 1 2);
      [vm_compute; reflexivity | vm_compute; reflexivity | lia].
Defined.

(** ** The bootstrap script *)

(** A second run, after a run that created the table, is an error and
    not a success. *)
Lemma setup_database_twice_fails :
  fst (setup_db.setup_database (mkworld ∅ 0)) = setup_db.Created
  /\ fst (setup_db.setup_database
            (snd (setup_db.setup_database (mkworld ∅ 0))))
     <> setup_db.Created.
Proof. split; [vm_compute; reflexivity|]. vm_compute. discriminate. Qed.

(** C4, as the code has it: after a run of [setup_database] that created
    the table, a second run fails, the table being there already, and
    leaves every file as the first run left it. *)
Theorem setup_database_runs_once (w w' : world) :
  setup_db.setup_database w = (setup_db.Created, w') ->
  fst (setup_db.setup_database w')
  = setup_db.OperationalError (table_already_exists "tasks")
  /\ files (snd (setup_db.setup_database w')) = files w'.
Proof.
  unfold setup_db.setup_database, connect, setup_db.create_table_tasks.
  simpl.
  destruct (default ∅ (files w !! setup_db.DB_FILE) !! "tasks") eqn:Hfirst;
    [discriminate|].
  intros [= <-]. simpl. rewrite lookup_insert_eq. simpl.
  rewrite lookup_insert_eq. simpl. auto.
Qed.

Lemma setup_database_runs_once_witness :
  fst (setup_db.setup_database (snd (setup_db.setup_database (mkworld ∅ 0))))
  = setup_db.OperationalError (table_already_exists "tasks")
  /\ files (snd (setup_db.setup_database
                   (snd (setup_db.setup_database (mkworld ∅ 0)))))
     = files (snd (setup_db.setup_database (mkworld ∅ 0))).
Proof.
  apply (setup_database_runs_once (mkworld ∅ 0)). vm_compute. reflexivity.
Defined.

(** C2, at the world a first run of the bootstrap script leaves: the
    script and the commands name two files and two tables, the table of
    the script has no [deleted_date], and every command ends on the
    missing store.  Were the file of the script the store, [add] would
    find no table [task]; were its table named [task], [complete] would
    find no column [deleted_date]. *)
Theorem bootstrap_store_is_not_the_task_store :
  let w := snd (setup_db.setup_database (mkworld ∅ 0)) in
  let db := default ∅ (files w !! setup_db.DB_FILE) in
  setup_db.DB_FILE <> khumbuza.DB_FILE
  /\ ~ In "deleted_date" setup_db.tasks_columns
  /\ fst (setup_db.setup_database (mkworld ∅ 0)) = setup_db.Created
  /\ option_map columns (db !! "tasks") = Some setup_db.tasks_columns
  /\ db !! "task" = None
  /\ task_table w = None
  /\ khumbuza.init_database w = false
  /\ (forall now today c, fst (run now today c w) = khumbuza.DatabaseNotFound)
  /\ fst (khumbuza.add "2025-01-04 09:00:00" "Pay rent" (Some "2025-01-05")
            None false false false None w) = khumbuza.DatabaseNotFound
  /\ fst (khumbuza.list (mkdate 2025 1 4) 30 false w)
     = khumbuza.DatabaseNotFound
  /\ fst (khumbuza.complete "2025-01-04 09:00:00" 1 w)
     = khumbuza.DatabaseNotFound
  /\ fst (khumbuza.remove "2025-01-04 09:00:00" 1 false w)
     = khumbuza.DatabaseNotFound
  /\ fst (khumbuza.add "2025-01-04 09:00:00" "Pay rent" (Some "2025-01-05")
            None false false false None
            (mkworld {[ khumbuza.DB_FILE := db ]} 0))
     = khumbuza.OperationalError (no_such_table "task")
  /\ fst (khumbuza.complete "2025-01-04 09:00:00" 1
            (mkworld
               {[ khumbuza.DB_FILE :=
                    {[ "task" := mktable setup_db.tasks_columns 0 [] ]} ]}
               0))
     = khumbuza.OperationalError (no_such_column "deleted_date").
Proof.
  intros w db. split; [discriminate|]. split.
  - simpl. intuition discriminate.
  - assert (Hinit : khumbuza.init_database w = false)
      by (vm_compute; reflexivity).
    do 5 (split; [vm_compute; reflexivity|]).
    split; [intros now today c; unfold run, khumbuza.cli; rewrite Hinit;
            reflexivity|].
    vm_compute. repeat split; reflexivity.
Qed.

(** ** The horizon and the text of a due date *)

(** *** Text and date agree on the ISO form *)

Lemma digit_compare (a b : Z) :
  Ascii.compare (digit a) (digit b) = (a mod 10 ?= b mod 10).
Proof.
  unfold Ascii.compare, digit.
  pose proof (Z.mod_pos_bound a 10 eq_refl) as Ha.
  pose proof (Z.mod_pos_bound b 10 eq_refl) as Hb.
  rewrite !N_ascii_embedding by lia.
  rewrite <- N2Z.inj_compare, !N2Z.inj_add, !Z2N.id by lia.
  apply Z.add_compare_mono_l.
Qed.

Lemma compare_by_digits (a b : Z) :
  (a ?= b)
  = match a / 10 ?= b / 10 with
    | Eq => a mod 10 ?= b mod 10
    | c => c
    end.
Proof.
  pose proof (Z.div_mod a 10 ltac:(lia)) as Ha.
  pose proof (Z.div_mod b 10 ltac:(lia)) as Hb.
  pose proof (Z.mod_pos_bound a 10 eq_refl) as Ha'.
  pose proof (Z.mod_pos_bound b 10 eq_refl) as Hb'.
  destruct (Z.compare_spec (a / 10) (b / 10));
    destruct (Z.compare_spec (a mod 10) (b mod 10));
    destruct (Z.compare_spec a b); try reflexivity; lia.
Qed.

Lemma small_mod (a : Z) : 0 <= a < 10 -> a mod 10 = a.
Proof. intros H. apply Z.mod_small. exact H. Qed.

Lemma compare_2_digits (a b : Z) :
  0 <= a < 100 -> 0 <= b < 100 ->
  (a ?= b)
  = match (a / 10) mod 10 ?= (b / 10) mod 10 with
    | Eq => a mod 10 ?= b mod 10
    | c => c
    end.
Proof.
  intros Ha Hb. rewrite (compare_by_digits a b).
  rewrite (small_mod (a / 10)), (small_mod (b / 10)); [reflexivity| |].
  - split; [apply Z.div_pos; lia | apply Z.div_lt_upper_bound; lia].
  - split; [apply Z.div_pos; lia | apply Z.div_lt_upper_bound; lia].
Qed.

Lemma compare_4_digits (a b : Z) :
  0 <= a < 10000 -> 0 <= b < 10000 ->
  (a ?= b)
  = match (a / 1000) mod 10 ?= (b / 1000) mod 10 with
    | Eq =>
        match (a / 100) mod 10 ?= (b / 100) mod 10 with
        | Eq =>
            match (a / 10) mod 10 ?= (b / 10) mod 10 with
            | Eq => a mod 10 ?= b mod 10
            | c => c
            end
        | c => c
        end
    | c => c
    end.
Proof.
  intros Ha Hb.
  assert (Hdiv : forall x, x / 10 / 10 = x / 100 /\ x / 100 / 10 = x / 1000).
  { intros x. rewrite !Z.div_div by lia. auto. }
  pose proof (compare_by_digits a b) as H1.
  pose proof (compare_by_digits (a / 10) (b / 10)) as H2.
  pose proof (compare_by_digits (a / 100) (b / 100)) as H3.
  rewrite (proj1 (Hdiv a)), (proj1 (Hdiv b)) in H2.
  rewrite (proj2 (Hdiv a)), (proj2 (Hdiv b)) in H3.
  rewrite (small_mod (a / 1000)), (small_mod (b / 1000)).
  - rewrite H1, H2, H3.
    destruct (a / 1000 ?= b / 1000); try reflexivity.
    destruct ((a / 100) mod 10 ?= (b / 100) mod 10); reflexivity.
  - split; [apply Z.div_pos; lia | apply Z.div_lt_upper_bound; lia].
  - split; [apply Z.div_pos; lia | apply Z.div_lt_upper_bound; lia].
Qed.

(** On dates whose fields have the width of their format, the texts are
    in the order of the dates. *)
Lemma isoformat_compare (a b : date) :
  0 <= year a < 10000 -> 0 <= month a < 100 -> 0 <= day a < 100 ->
  0 <= year b < 10000 -> 0 <= month b < 100 -> 0 <= day b < 100 ->
  String.compare (isoformat a) (isoformat b) = date_compare a b.
Proof.
  intros Hya Hma Hda Hyb Hmb Hdb. unfold date_compare.
  rewrite (compare_4_digits (year a) (year b) Hya Hyb).
  rewrite (compare_2_digits (month a) (month b) Hma Hmb).
  rewrite (compare_2_digits (day a) (day b) Hda Hdb).
  unfold isoformat, fmt04, fmt02. simpl String.append. simpl String.compare.
  rewrite !digit_compare.
  repeat match goal with
         | |- context [match ?c with Eq => _ | Lt => _ | Gt => _ end] =>
             destruct c; try reflexivity
         end.
Qed.

Lemma valid_date_width (d : date) :
  valid_date d = true ->
  0 <= year d < 10000 /\ 0 <= month d < 100 /\ 0 <= day d < 100.
Proof.
  unfold valid_date, MINYEAR, MAXYEAR, _days_in_month. intros H.
  repeat (apply andb_true_iff in H as [H ?]).
  assert (Hm : month d = 1 \/ month d = 2 \/ month d = 3 \/ month d = 4
               \/ month d = 5 \/ month d = 6 \/ month d = 7 \/ month d = 8
               \/ month d = 9 \/ month d = 10 \/ month d = 11
               \/ month d = 12) by lia.
  assert (Hd : day d <= 31).
  { destruct ((month d =? 2) && _is_leap (year d)); [lia|].
    repeat (destruct Hm as [Hm|Hm]; [rewrite Hm in *; simpl in *; lia|]).
    rewrite Hm in *. simpl in *. lia. }
  lia.
Qed.

(** A due date stored in the ISO form is within the cut-off exactly when
    its date is at most the date of the cut-off. *)
Lemma within_iso_is_date_le (r : task) (d cutoff : date) :
  valid_date d = true -> valid_date cutoff = true ->
  due_date r = Some (isoformat d) ->
  khumbuza.within (isoformat cutoff) r = date_le d cutoff.
Proof.
  intros Hd Hc Hr. unfold khumbuza.within, String.leb, date_le. rewrite Hr.
  destruct (valid_date_width d Hd) as (? & ? & ?).
  destruct (valid_date_width cutoff Hc) as (? & ? & ?).
  rewrite isoformat_compare by assumption. reflexivity.
Qed.

(** The ISO text of a date parses back to the date. *)
Example strptime_isoformat :
  strptime (isoformat (mkdate 2025 1 5)) = Some (mkdate 2025 1 5).
Proof. reflexivity. Qed.

(** C9, at two due dates that [add] accepts: a task due within the
    horizon is left out of the listing, and a task due tomorrow is in the
    listing of horizon 0. *)
Theorem horizon_compares_text :
  let w1 :=
    snd (khumbuza.add "2025-08-25 09:00:00" "A" (Some "2025-9-1") None false
           false false None empty_store) in
  let w2 :=
    snd (khumbuza.add "2025-01-04 09:00:00" "B" (Some "2025-01- 5") None
           false false false None empty_store) in
  (strptime "2025-9-1" = Some (mkdate 2025 9 1)
   /\ add_days (mkdate 2025 8 25) 30 = Some (mkdate 2025 9 24)
   /\ date_le (mkdate 2025 9 1) (mkdate 2025 9 24) = true
   /\ fst (khumbuza.add "2025-08-25 09:00:00" "A" (Some "2025-9-1") None
             false false false None empty_store)
      = khumbuza.Added 1 "A" (Some "2025-9-1")
   /\ fst (khumbuza.list (mkdate 2025 8 25) 30 false w1)
      = khumbuza.NoTasksDue)
  /\ (strptime "2025-01- 5" = Some (mkdate 2025 1 5)
      /\ add_days (mkdate 2025 1 4) 1 = Some (mkdate 2025 1 5)
      /\ fst (khumbuza.add "2025-01-04 09:00:00" "B" (Some "2025-01- 5")
                None false false false None empty_store)
         = khumbuza.Added 1 "B" (Some "2025-01- 5")
      /\ fst (khumbuza.list (mkdate 2025 1 4) 0 false w2)
         = khumbuza.Tasks [(1, "B", Some "2025-01- 5", None)]).
Proof. vm_compute. repeat split; reflexivity. Qed.

(** * Further properties of the commands *)

(** ** What a listing holds *)

Lemma listed_report
  (results : list (Z * string * option string * option string)) :
  listed (khumbuza.report results) = results.
Proof. destruct results; reflexivity. Qed.




Lemma list_serves_listed (w : world) (t : table) (today : date) (days : Z)
  (show_all : bool) :
  serves w t ->
  listed (fst (khumbuza.list today days show_all w))
  = match (if show_all then Some None
           else option_map (fun c => Some (isoformat c))
                  (add_days today days)) with
    | Some cutoff =>
        map khumbuza.summary
          (order_by_due_date_id (List.filter (selected cutoff) (rows t)))
    | None => []
    end.
Proof.
  intros Hs. rewrite (list_serves w t today days show_all Hs).
  destruct show_all; simpl; [apply listed_report|].
  destruct (add_days today days); simpl; [apply listed_report|reflexivity].
Qed.


(** ** A listing after another command *)

Lemma insert_sorted_map (f : task -> task) (r : task) (rs : list task) :
  (forall a b, order_le (f a) (f b) = order_le a b) ->
  insert_sorted (f r) (map f rs) = map f (insert_sorted r rs).
Proof.
  intros Hf. induction rs as [|x rs IH]; simpl; [reflexivity|].
  rewrite Hf. destruct (order_le r x); simpl; [reflexivity|].
  rewrite IH. reflexivity.
Qed.

Lemma order_by_map (f : task -> task) (rs : list task) :
  (forall a b, order_le (f a) (f b) = order_le a b) ->
  order_by_due_date_id (map f rs) = map f (order_by_due_date_id rs).
Proof.
  intros Hf. induction rs as [|r rs IH]; simpl; [reflexivity|].
  rewrite IH. apply insert_sorted_map. exact Hf.
Qed.

Lemma insert_sorted_first (r : task) (rs : list task) :
  List.Forall (fun x => order_le r x = true) rs ->
  insert_sorted r rs = r :: rs.
Proof.
  intros Hall. destruct rs as [|x rs]; [reflexivity|]. simpl.
  apply List.Forall_inv in Hall. rewrite Hall. reflexivity.
Qed.

Lemma insert_sorted_filter (p : task -> bool) (r : task) (rs : list task) :
  StronglySorted (fun a b => order_le a b = true) rs ->
  List.filter p (insert_sorted r rs)
  = if p r then insert_sorted r (List.filter p rs) else List.filter p rs.
Proof.
  induction 1 as [|x rs Hs IH Hall]; simpl.
  - destruct (p r); reflexivity.
  - destruct (order_le r x) eqn:Hrx; simpl.
    + destruct (p r); [|reflexivity].
      symmetry. apply (insert_sorted_first r (List.filter p (x :: rs))).
      apply List.Forall_forall. intros y Hy.
      apply List.filter_In in Hy as [[<-|Hy] _]; [exact Hrx|].
      rewrite List.Forall_forall in Hall.
      apply (order_le_trans r x y Hrx). auto.
    + rewrite IH. destruct (p x), (p r); simpl; try reflexivity.
      rewrite Hrx. reflexivity.
Qed.

Lemma order_by_filter (p : task -> bool) (rs : list task) :
  List.filter p (order_by_due_date_id rs)
  = order_by_due_date_id (List.filter p rs).
Proof.
  induction rs as [|r rs IH]; simpl; [reflexivity|].
  rewrite (insert_sorted_filter p r _ (order_by_sorted rs)), IH.
  destruct (p r); reflexivity.
Qed.

Lemma filter_map_update (p : task -> bool) (f : task -> task) (task_id : Z)
  (rs : list task) :
  (forall r, p (f r) = p r) ->
  List.filter p (map (fun r => if id r =? task_id then f r else r) rs)
  = map (fun r => if id r =? task_id then f r else r) (List.filter p rs).
Proof.
  intros Hp. induction rs as [|x rs IH]; simpl; [reflexivity|].
  assert (Hx : p (if id x =? task_id then f x else x) = p x).
  { destruct (id x =? task_id); [apply Hp|reflexivity]. }
  rewrite Hx. destruct (p x); simpl; rewrite IH; reflexivity.
Qed.

(** X7: A successful [remove] changes no line of any listing: [list] prints
    after it what it printed before. *)
Theorem remove_keeps_listing (w w' : world) (t : table) (now title : string)
  (task_id : Z) (force : bool) (today : date) (days : Z) (show_all : bool) :
  serves w t ->
  khumbuza.remove now task_id force w
  = (khumbuza.Removed task_id title, w') ->
  fst (khumbuza.list today days show_all w')
  = fst (khumbuza.list today days show_all w).
Proof.
  intros Hs Hrem.
  destruct (int64 task_id) eqn:Hid.
  - rewrite (remove_serves w t now task_id force Hs Hid) in Hrem.
    destruct (List.find _ (rows t)) as [r|]; [|discriminate].
    destruct ((completed r =? 0) && negb force); [discriminate|].
    injection Hrem as _ <-.
    rewrite (list_serves _
               (khumbuza.update_where_id (khumbuza.set_deleted now) task_id
                  t))
      by (apply (serves_put w t); [exact Hs|reflexivity]).
    rewrite (list_serves w t today days show_all Hs).
    assert (Hsame : forall cutoff,
               map khumbuza.summary
                 (order_by_due_date_id
                    (List.filter (selected cutoff)
                       (rows (khumbuza.update_where_id
                                (khumbuza.set_deleted now) task_id t))))
               = map khumbuza.summary
                   (order_by_due_date_id
                      (List.filter (selected cutoff) (rows t)))).
    { intros cutoff. simpl.
      rewrite (filter_map_update (selected cutoff)) by reflexivity.
      set (f := fun r : task =>
                  if id r =? task_id then khumbuza.set_deleted now r else r).
      rewrite (order_by_map f).
      - rewrite List.map_map. apply List.map_ext. intros r0. unfold f.
        destruct (id r0 =? task_id); reflexivity.
      - intros a b. unfold f.
        destruct (id a =? task_id), (id b =? task_id); reflexivity. }
    destruct show_all; simpl; [rewrite Hsame; reflexivity|].
    destruct (add_days today days); simpl; [rewrite Hsame|]; reflexivity.
  - exfalso.
    destruct (serves_connection w t Hs) as (db & Hconn & Hdb & Ht).
    unfold khumbuza.remove in Hrem. rewrite Hconn in Hrem.
    unfold khumbuza.select_title_completed in Hrem.
    rewrite (serves_prepare w t db _ Hs Ht) in Hrem by columns_known.
    rewrite Hid in Hrem. discriminate.
Qed.

(** X8: A successful [complete] takes the line of its task, and no other
    line, out of every listing. *)
Theorem complete_takes_line_out (w w' : world) (t : table)
  (now title : string) (task_id : Z) (today : date) (days : Z)
  (show_all : bool) :
  serves w t ->
  khumbuza.complete now task_id w
  = (khumbuza.Completed task_id title, w') ->
  listed (fst (khumbuza.list today days show_all w'))
  = List.filter
      (fun line : Z * string * option string * option string =>
         negb (line.1.1.1 =? task_id))
      (listed (fst (khumbuza.list today days show_all w))).
Proof.
  intros Hs Hdone.
  destruct (int64 task_id) eqn:Hid.
  - rewrite (complete_serves w t now task_id Hs Hid) in Hdone.
    destruct (List.find _ (rows t)) as [r|]; [|discriminate].
    destruct (completed r =? 0); [|discriminate].
    injection Hdone as _ <-.
    rewrite (list_serves_listed _
               (khumbuza.update_where_id (khumbuza.set_completed now)
                  task_id t))
      by (apply (serves_put w t); [exact Hs|reflexivity]).
    rewrite (list_serves_listed w t today days show_all Hs).
    destruct (if show_all then Some None
              else option_map (fun c => Some (isoformat c))
                     (add_days today days)) as [cutoff|]; [|reflexivity].
    assert (Hrows : List.filter (selected cutoff)
                      (rows (khumbuza.update_where_id
                               (khumbuza.set_completed now) task_id t))
                    = List.filter (fun x => negb (id x =? task_id))
                        (List.filter (selected cutoff) (rows t))).
    { simpl. induction (rows t) as [|x rs IH]; [reflexivity|]. simpl.
      destruct (id x =? task_id) eqn:Hx.
      - unfold selected at 1. simpl. rewrite IH.
        destruct (selected cutoff x); simpl; [rewrite Hx|]; reflexivity.
      - rewrite IH. destruct (selected cutoff x); simpl; [rewrite Hx|];
          reflexivity. }
    rewrite Hrows, <- order_by_filter.
    induction (order_by_due_date_id (List.filter (selected cutoff) (rows t)))
      as [|x rs IH]; [reflexivity|].
    simpl. destruct (id x =? task_id); simpl; rewrite IH; reflexivity.
  - exfalso.
    destruct (serves_connection w t Hs) as (db & Hconn & Hdb & Ht).
    unfold khumbuza.complete in Hdone. rewrite Hconn in Hdone.
    unfold khumbuza.select_title_completed in Hdone.
    rewrite (serves_prepare w t db _ Hs Ht) in Hdone by columns_known.
    rewrite Hid in Hdone. discriminate.
Qed.

(** ** The four ways a command line ends *)

(** On a store that serves, a command line either leaves every file as it
    was, or is an [add] that appends its row, or a [complete] or a
    [remove] that marks the rows of its key. *)
Lemma run_cases (now : string) (today : date) (c : command) (w : world)
  (t : table) :
  serves w t ->
  (files (snd (run now today c w)) = files w
   /\ connections (snd (run now today c w))
      = (if leaves_open (fst (run now today c w))
         then S (connections w) else connections w))
  \/ (exists title due description weekly monthly yearly remind,
        c = Add title due description weekly monthly yearly remind
        /\ ~ rejected due weekly monthly yearly remind
        /\ run now today c w
           = (khumbuza.Added (next_id t) title (stored_due due),
              put_task_table
                (mktable (columns t) (next_id t)
                   (rows t
                    ++ [added_row t now title due description weekly monthly
                          yearly remind])) w))
  \/ (exists task_id r,
        c = Complete task_id
        /\ List.find (khumbuza.live task_id) (rows t) = Some r
        /\ completed r = 0
        /\ run now today c w
           = (khumbuza.Completed task_id (title r),
              put_task_table
                (khumbuza.update_where_id (khumbuza.set_completed now)
                   task_id t) w))
  \/ (exists task_id force r,
        c = Remove task_id force
        /\ List.find (khumbuza.live task_id) (rows t) = Some r
        /\ (completed r <> 0 \/ force = true)
        /\ run now today c w
           = (khumbuza.Removed task_id (title r),
              put_task_table
                (khumbuza.update_where_id (khumbuza.set_deleted now)
                   task_id t) w)).
Proof.
  intros Hs.
  destruct (serves_connection w t Hs) as (db & Hconn & Hdb & Ht).
  unfold run, khumbuza.cli. rewrite (serves_init w t Hs).
  destruct c as [title due description weekly monthly yearly remind
                | days show_all | task_id | task_id force].
  - destruct (rejected_dec due weekly monthly yearly remind) as [Hrej|Hacc].
    + left.
      destruct (add_rejected w now title due description weekly monthly
                  yearly remind Hrej) as [Hval Hw].
      rewrite Hw. split; [reflexivity|].
      destruct Hval as [-> | [-> | ->]]; reflexivity.
    + rewrite (add_not_rejected w t now title due description weekly
                 monthly yearly remind Hacc Hs).
      destruct (int64 (default 0 remind)); [|left; split; reflexivity].
      destruct (int64 (next_id t)); [|left; split; reflexivity].
      right. left. do 7 eexists. split; [reflexivity|].
      split; [exact Hacc|reflexivity].
  - left. rewrite (list_serves w t today days show_all Hs).
    destruct show_all.
    + simpl. split; [reflexivity|]. destruct (map _ _); reflexivity.
    + destruct (add_days today days); [|split; reflexivity].
      simpl. split; [reflexivity|]. destruct (map _ _); reflexivity.
  - destruct (int64 task_id) eqn:Hid.
    + rewrite (complete_serves w t now task_id Hs Hid).
      destruct (List.find _ (rows t)) as [r|] eqn:Hfind;
        [|left; split; reflexivity].
      destruct (completed r =? 0) eqn:Hc; [|left; split; reflexivity].
      right. right. left. exists task_id, r. apply Z.eqb_eq in Hc. auto.
    + left. unfold khumbuza.complete. rewrite Hconn.
      rewrite (overflow_serves w t task_id Hs Hid db Ht).
      split; reflexivity.
  - destruct (int64 task_id) eqn:Hid.
    + rewrite (remove_serves w t now task_id force Hs Hid).
      destruct (List.find _ (rows t)) as [r|] eqn:Hfind;
        [|left; split; reflexivity].
      destruct ((completed r =? 0) && negb force) eqn:Hc;
        [left; split; reflexivity|].
      right. right. right. exists task_id, force, r.
      split; [reflexivity|]. split; [exact Hfind|]. split; [|reflexivity].
      apply andb_false_iff in Hc as [Hc|Hc].
      * left. apply Z.eqb_neq. exact Hc.
      * right. destruct force; [reflexivity|discriminate].
    + left. unfold khumbuza.remove. rewrite Hconn.
      rewrite (overflow_serves w t task_id Hs Hid db Ht).
      split; reflexivity.
Qed.

(** X4: Every command line, on a store that serves, ends with the count of
    open connections it found, unless it ends on the refusal of [remove]
    or on an exception, and then with one more. *)
Theorem run_connections (now : string) (today : date) (c : command)
  (w : world) (t : table) :
  serves w t ->
  connections (snd (run now today c w))
  = if leaves_open (fst (run now today c w))
    then S (connections w) else connections w.
Proof.
  intros Hs.
  destruct (run_cases now today c w t Hs)
    as [[_ H] | [H | [H | H]]]; [exact H | | |].
  - destruct H as (? & ? & ? & ? & ? & ? & ? & _ & _ & ->). reflexivity.
  - destruct H as (? & ? & _ & _ & _ & ->). reflexivity.
  - destruct H as (? & ? & ? & _ & _ & _ & ->). reflexivity.
Qed.

(** ** What becomes of the rows *)

Lemma key_unique (rs : list task) (a b : task) :
  NoDup (map id rs) -> In a rs -> In b rs -> id a = id b -> a = b.
Proof.
  induction rs as [|x rs IH]; simpl; [tauto|].
  intros Hkey Ha Hb Hid. apply NoDup_cons in Hkey as [Hx Hkey].
  destruct Ha as [->|Ha], Hb as [->|Hb]; auto.
  - exfalso. apply Hx. apply list_elem_of_In. rewrite Hid.
    apply List.in_map. exact Hb.
  - exfalso. apply Hx. apply list_elem_of_In. rewrite <- Hid.
    apply List.in_map. exact Ha.
Qed.

Lemma Forall2_map_In {A B} (R : A -> B -> Prop) (g : A -> B) (l : list A) :
  (forall x, In x l -> R x (g x)) -> Forall2 R l (map g l).
Proof.
  induction l as [|x l IH]; simpl; intros H; constructor; auto.
Qed.

Lemma ages_refl (r : task) : ages r r.
Proof. unfold ages. tauto. Qed.

Lemma find_live_is_live (task_id : Z) (rs : list task) (r : task) :
  List.find (khumbuza.live task_id) rs = Some r ->
  In r rs /\ id r = task_id /\ deleted_date r = None.
Proof.
  intros Hfind. apply List.find_some in Hfind as [Hin Hlive].
  unfold khumbuza.live in Hlive. apply andb_true_iff in Hlive as [Hid Hdel].
  apply Z.eqb_eq in Hid. destruct (deleted_date r); [discriminate|auto].
Qed.

Lemma update_ages (f : task -> task) (task_id : Z) (r : task)
  (rs : list task) :
  NoDup (map id rs) ->
  List.find (khumbuza.live task_id) rs = Some r ->
  ages r (f r) ->
  Forall2 ages rs (map (fun x => if id x =? task_id then f x else x) rs).
Proof.
  intros Hkey Hfind Hr. apply Forall2_map_In. intros x Hx.
  destruct (id x =? task_id) eqn:Hid; [|apply ages_refl].
  apply Z.eqb_eq in Hid.
  destruct (find_live_is_live task_id rs r Hfind) as (Hin & Hrid & _).
  assert (x = r) by (apply (key_unique rs); congruence).
  subst x. exact Hr.
Qed.

Lemma same_ages (rs : list task) : Forall2 ages rs rs.
Proof. induction rs; constructor; [apply ages_refl|assumption]. Qed.

(** X3: Whatever the command line, on a store that serves and has [id] as
    its key: the rows that were there are there afterwards in their
    order, each with its id, title, description, due date, recurrence,
    reminder days and date of creation; a deleted row is as it was; a
    completed row keeps its completion and the date of it; rows are only
    added after them. *)
Theorem run_lifecycle (now : string) (today : date) (c : command)
  (w : world) (t : table) :
  serves w t -> primary_key t ->
  exists t' old new,
    serves (snd (run now today c w)) t'
    /\ rows t' = (old ++ new)%list /\ Forall2 ages (rows t) old.
Proof.
  intros Hs Hkey.
  destruct (run_cases now today c w t Hs)
    as [[Hfiles _] | [H | [H | H]]].
  - exists t, (rows t), []. split; [apply (serves_files w); assumption|].
    split; [symmetry; apply List.app_nil_r|apply same_ages].
  - destruct H as (title & due & description & weekly & monthly & yearly
                   & remind & _ & _ & ->).
    exists (mktable (columns t) (next_id t)
              (rows t
               ++ [added_row t now title due description weekly monthly
                     yearly remind])),
      (rows t),
      [added_row t now title due description weekly monthly yearly remind].
    split; [|split; [reflexivity|apply same_ages]].
    apply (serves_put w t); [exact Hs|reflexivity].
  - destruct H as (task_id & r & _ & Hfind & Hc & ->).
    exists (khumbuza.update_where_id (khumbuza.set_completed now) task_id t),
      (rows (khumbuza.update_where_id (khumbuza.set_completed now) task_id
               t)), [].
    split; [|split; [symmetry; apply List.app_nil_r|]].
    + apply (serves_put w t); [exact Hs|reflexivity].
    + simpl. apply (update_ages _ task_id r (rows t) Hkey Hfind).
      destruct (find_live_is_live task_id (rows t) r Hfind)
        as (_ & _ & Hdel).
      unfold ages. simpl. repeat split; try reflexivity; congruence.
  - destruct H as (task_id & force & r & _ & Hfind & _ & ->).
    exists (khumbuza.update_where_id (khumbuza.set_deleted now) task_id t),
      (rows (khumbuza.update_where_id (khumbuza.set_deleted now) task_id t)),
      [].
    split; [|split; [symmetry; apply List.app_nil_r|]].
    + apply (serves_put w t); [exact Hs|reflexivity].
    + simpl. apply (update_ages _ task_id r (rows t) Hkey Hfind).
      destruct (find_live_is_live task_id (rows t) r Hfind)
        as (_ & _ & Hdel).
      unfold ages. simpl. repeat split; try reflexivity; congruence.
Qed.

(** ** The store of a sequence of command lines *)

Lemma max_id_le (rs : list task) (m : Z) :
  0 <= m -> (forall x, In x rs -> id x <= m) -> max_id rs <= m.
Proof.
  intros Hm. induction rs as [|r rs IH]; simpl; intros H; [exact Hm|].
  apply Z.max_lub; [apply H; auto|apply IH; auto].
Qed.

Lemma keys_in_sequence_next (t : table) :
  keys_in_sequence t -> next_id t = Z.of_nat (S (length (rows t))).
Proof.
  intros [Hids Hseq]. unfold next_id. rewrite Hseq.
  assert (Hmax : max_id (rows t) <= Z.of_nat (length (rows t))).
  { apply max_id_le; [lia|]. intros x Hx.
    apply (List.in_map id) in Hx. rewrite Hids in Hx.
    apply List.in_map_iff in Hx as (k & <- & Hk).
    apply List.in_seq in Hk. lia. }
  lia.
Qed.

Lemma keys_in_sequence_append (t : table) (r : task) :
  keys_in_sequence t -> id r = next_id t ->
  keys_in_sequence (mktable (columns t) (next_id t) (rows t ++ [r])).
Proof.
  intros Hk Hr. pose proof (keys_in_sequence_next t Hk) as Hnext.
  destruct Hk as [Hids Hseq]. unfold keys_in_sequence. simpl.
  rewrite List.length_app, List.map_app, Hids. simpl.
  replace (length (rows t) + 1)%nat with (S (length (rows t))) by lia.
  split; [|exact Hnext].
  rewrite List.seq_S, List.map_app. simpl. rewrite Hr, Hnext.
  reflexivity.
Qed.

Lemma keys_in_sequence_update (f : task -> task) (task_id : Z) (t : table) :
  (forall r, id (f r) = id r) -> keys_in_sequence t ->
  keys_in_sequence (khumbuza.update_where_id f task_id t).
Proof.
  intros Hf [Hids Hseq]. unfold keys_in_sequence.
  rewrite (update_keeps_ids f task_id t Hf). simpl.
  rewrite List.length_map. auto.
Qed.

Lemma keys_in_sequence_key (t : table) : keys_in_sequence t -> primary_key t.
Proof.
  intros [Hids _]. unfold primary_key. rewrite Hids.
  apply NoDup_fmap_2; [intros a b; apply Nat2Z.inj|].
  apply NoDup_ListNoDup, List.seq_NoDup.
Qed.

Lemma added_row_ok (t : table) (now title : string)
  (due description : option string) (weekly monthly yearly : bool)
  (remind : option Z) :
  ~ rejected due weekly monthly yearly remind ->
  row_ok (added_row t now title due description weekly monthly yearly remind).
Proof.
  intros Hacc. unfold row_ok, added_row. simpl.
  split; [pose proof (Z.le_max_r (seq t) (max_id (rows t)));
          assert (0 <= max_id (rows t))
            by (induction (rows t); simpl; lia);
          unfold next_id; lia|].
  split; [auto|]. split.
  { destruct remind as [n|]; simpl; [|lia].
    destruct (Z_lt_dec n 0); [|lia].
    exfalso. apply Hacc. right. right. exists n. auto. }
  split; [reflexivity|]. split.
  { destruct weekly, monthly, yearly; auto. }
  destruct due as [[|c s]|]; simpl; auto.
  destruct (strptime (String c s)) as [d|] eqn:Hp; [eauto|].
  exfalso. apply Hacc. left. exists (String c s).
  repeat split; congruence.
Qed.

Lemma update_rows_ok (f : task -> task) (task_id : Z) (t : table) :
  (forall r, row_ok r -> row_ok (f r)) ->
  List.Forall row_ok (rows t) ->
  List.Forall row_ok (rows (khumbuza.update_where_id f task_id t)).
Proof.
  intros Hf Hok. simpl. rewrite List.Forall_forall in *.
  intros x Hx. apply List.in_map_iff in Hx as (y & <- & Hy).
  destruct (id y =? task_id); auto.
Qed.

(** One command line keeps the store in order: it serves, its keys are
    1, 2, 3, ... in the order of the rows, and every row is as the
    commands write rows. *)
Lemma run_keeps_order (now : string) (today : date) (c : command)
  (w : world) (t : table) :
  serves w t -> keys_in_sequence t -> List.Forall row_ok (rows t) ->
  exists t',
    serves (snd (run now today c w)) t' /\ keys_in_sequence t'
    /\ List.Forall row_ok (rows t').
Proof.
  intros Hs Hk Hok.
  destruct (run_cases now today c w t Hs)
    as [[Hfiles _] | [H | [H | H]]].
  - exists t. split; [apply (serves_files w); assumption|auto].
  - destruct H as (title & due & description & weekly & monthly & yearly
                   & remind & _ & Hacc & ->).
    eexists. split; [apply (serves_put w t); [exact Hs|reflexivity]|].
    split; [apply keys_in_sequence_append; [exact Hk|reflexivity]|].
    simpl. apply List.Forall_app. split; [exact Hok|].
    constructor; [|constructor]. apply added_row_ok. exact Hacc.
  - destruct H as (task_id & r & _ & _ & _ & ->).
    eexists. split; [apply (serves_put w t); [exact Hs|reflexivity]|].
    split; [apply keys_in_sequence_update; [reflexivity|exact Hk]|].
    apply update_rows_ok; [|exact Hok].
    intros x (H1 & H2 & H3). unfold row_ok. simpl.
    split; [exact H1|]. split; [right; split; congruence|exact H3].
  - destruct H as (task_id & force & r & _ & _ & _ & ->).
    eexists. split; [apply (serves_put w t); [exact Hs|reflexivity]|].
    split; [apply keys_in_sequence_update; [reflexivity|exact Hk]|].
    apply update_rows_ok; [|exact Hok]. intros x Hx. exact Hx.
Qed.

(** X2: Whatever command lines are run, one after the other, on a store whose
    table is empty: the store still serves, the keys of its rows are
    1, 2, 3, ... in the order in which they were added, so that no key is
    given twice, and every row is completed with its date or neither,
    has reminder days that are not negative, at most one recurrence and
    a due date that is absent or parses. *)
Theorem script_keeps_order (script : list (string * date * command)) :
  exists t,
    serves (run_all script empty_store) t /\ keys_in_sequence t
    /\ primary_key t /\ List.Forall row_ok (rows t).
Proof.
  assert (Hgen : forall w t,
             serves w t -> keys_in_sequence t ->
             List.Forall row_ok (rows t) ->
             exists t',
               serves (run_all script w) t' /\ keys_in_sequence t'
               /\ List.Forall row_ok (rows t')).
  { induction script as [|[[now today] c] script IH]; intros w t Hs Hk Hok.
    - exists t. auto.
    - destruct (run_keeps_order now today c w t Hs Hk Hok)
        as (t' & Hs' & Hk' & Hok').
      exact (IH _ t' Hs' Hk' Hok'). }
  destruct (Hgen empty_store (mktable task_columns 0 [])) as (t & Hs & Hk & H).
  - apply empty_store_serves.
  - split; reflexivity.
  - constructor.
  - exists t. split; [exact Hs|]. split; [exact Hk|].
    split; [apply keys_in_sequence_key; exact Hk|exact H].
Qed.

(** ** A store that is missing, or is not the one the commands expect *)

Lemma add_reaches_store (w : world) (now title : string)
  (due description : option string) (weekly monthly yearly : bool)
  (remind : option Z) :
  ~ rejected due weekly monthly yearly remind ->
  khumbuza.add now title due description weekly monthly yearly remind w
  = match khumbuza.get_db_connection w with
    | None => (khumbuza.DatabaseNotFound, w)
    | Some (conn, w') =>
        match khumbuza.insert_task now title description (stored_due due)
                (if weekly then Some "weekly"
                 else if monthly then Some "monthly"
                 else if yearly then Some "yearly" else None)
                (default 0 remind) conn with
        | inl e => (khumbuza.raised e, w')
        | inr (task_id, conn') =>
            (khumbuza.Added task_id title (stored_due due),
             close (commit khumbuza.DB_FILE conn' w'))
        end
    end.
Proof.
  intros Hacc. unfold khumbuza.add.
  destruct due as [[|ch s]|]; [| destruct (strptime (String ch s)) eqn:Hp |].
  3: { exfalso. apply Hacc. left. exists (String ch s).
       repeat split; congruence. }
  all: destruct (1 <? Z.b2z weekly + Z.b2z monthly + Z.b2z yearly) eqn:Hf;
    [exfalso; apply Hacc; right; left; unfold several_flags;
     destruct weekly, monthly, yearly; try discriminate; tauto|].
  all: destruct remind as [n|];
    [destruct (n =? 0) eqn:H0; [|destruct (n <? 0) eqn:Hn]|];
    try reflexivity.
  all: try (exfalso; apply Hacc; right; right; exists n; split;
            [reflexivity|lia]).
  all: apply Z.eqb_eq in H0; subst n; reflexivity.
Qed.

(** X12: With no store file, every command line reports that the database is
    not found, changes nothing and opens no connection; so does every
    command run without the group callback, [add] once its input has
    passed the checks. *)
Theorem missing_store (w : world) :
  files w !! khumbuza.DB_FILE = None ->
  (forall now today c,
     run now today c w = (khumbuza.DatabaseNotFound, w))
  /\ (forall today days show_all,
        khumbuza.list today days show_all w
        = (khumbuza.DatabaseNotFound, w))
  /\ (forall now task_id,
        khumbuza.complete now task_id w = (khumbuza.DatabaseNotFound, w))
  /\ (forall now task_id force,
        khumbuza.remove now task_id force w
        = (khumbuza.DatabaseNotFound, w))
  /\ (forall now title due description weekly monthly yearly remind,
        ~ rejected due weekly monthly yearly remind ->
        khumbuza.add now title due description weekly monthly yearly remind
          w
        = (khumbuza.DatabaseNotFound, w)).
Proof.
  intros Hnone.
  assert (Hconn : khumbuza.get_db_connection w = None).
  { unfold khumbuza.get_db_connection. rewrite Hnone. reflexivity. }
  split; [|split; [|split; [|split]]].
  - intros now today c. unfold run, khumbuza.cli, khumbuza.init_database.
    rewrite Hnone. reflexivity.
  - intros. unfold khumbuza.list. rewrite Hconn. reflexivity.
  - intros. unfold khumbuza.complete. rewrite Hconn. reflexivity.
  - intros. unfold khumbuza.remove. rewrite Hconn. reflexivity.
  - intros now title due description weekly monthly yearly remind Hacc.
    rewrite (add_reaches_store w now title due description weekly monthly
               yearly remind Hacc), Hconn.
    reflexivity.
Qed.

(** X13: A store file without the table [task]: every command that reaches
    its statement ends on [no such table: task], with the file as it was
    and its connection open. *)
Theorem missing_table (w : world) (db : gmap string table) :
  files w !! khumbuza.DB_FILE = Some db -> db !! "task" = None ->
  (forall today days show_all,
     show_all = true \/ add_days today days <> None ->
     khumbuza.list today days show_all w
     = (khumbuza.OperationalError (no_such_table "task"),
        mkworld (files w) (S (connections w))))
  /\ (forall now task_id,
        khumbuza.complete now task_id w
        = (khumbuza.OperationalError (no_such_table "task"),
           mkworld (files w) (S (connections w))))
  /\ (forall now task_id force,
        khumbuza.remove now task_id force w
        = (khumbuza.OperationalError (no_such_table "task"),
           mkworld (files w) (S (connections w))))
  /\ (forall now title due description weekly monthly yearly remind,
        ~ rejected due weekly monthly yearly remind ->
        khumbuza.add now title due description weekly monthly yearly remind
          w
        = (khumbuza.OperationalError (no_such_table "task"),
           mkworld (files w) (S (connections w)))).
Proof.
  intros Hdb Ht.
  assert (Hconn : khumbuza.get_db_connection w
                  = Some (db, mkworld (files w) (S (connections w)))).
  { unfold khumbuza.get_db_connection, connect. rewrite Hdb. reflexivity. }
  assert (Hprep : forall cols, prepare "task" cols db
                               = inl (no_such_table "task")).
  { intros cols. unfold prepare. rewrite Ht. reflexivity. }
  split; [|split; [|split]].
  - intros today days show_all Hreach.
    unfold khumbuza.list, khumbuza.select_incomplete, khumbuza.select_due.
    rewrite Hconn, !Hprep. destruct show_all; [reflexivity|].
    destruct (add_days today days); [reflexivity|].
    destruct Hreach; [discriminate|contradiction].
  - intros. unfold khumbuza.complete, khumbuza.select_title_completed.
    rewrite Hconn, Hprep. reflexivity.
  - intros. unfold khumbuza.remove, khumbuza.select_title_completed.
    rewrite Hconn, Hprep. reflexivity.
  - intros now title due description weekly monthly yearly remind Hacc.
    rewrite (add_reaches_store w now title due description weekly monthly
               yearly remind Hacc), Hconn.
    unfold khumbuza.insert_task. rewrite Hprep. reflexivity.
Qed.

(** X14: A table [task] with the ten columns that [setup_db.py] declares, and
    so without [deleted_date]: [list] prints its incomplete rows, while
    [complete] and [remove] end on [no such column: deleted_date] for
    every id, with the file as it was and the connection open. *)
Theorem table_without_deleted_date (w : world) (db : gmap string table)
  (t : table) :
  files w !! khumbuza.DB_FILE = Some db -> db !! "task" = Some t ->
  columns t = setup_db.tasks_columns ->
  (forall today days,
     khumbuza.list today days true w
     = (khumbuza.report
          (map khumbuza.summary
             (order_by_due_date_id
                (List.filter (fun r => completed r =? 0) (rows t)))),
        w))
  /\ (forall now task_id,
        khumbuza.complete now task_id w
        = (khumbuza.OperationalError (no_such_column "deleted_date"),
           mkworld (files w) (S (connections w))))
  /\ (forall now task_id force,
        khumbuza.remove now task_id force w
        = (khumbuza.OperationalError (no_such_column "deleted_date"),
           mkworld (files w) (S (connections w)))).
Proof.
  intros Hdb Ht Hcols.
  assert (Hconn : khumbuza.get_db_connection w
                  = Some (db, mkworld (files w) (S (connections w)))).
  { unfold khumbuza.get_db_connection, connect. rewrite Hdb. reflexivity. }
  split; [|split].
  - intros. unfold khumbuza.list, khumbuza.select_incomplete, prepare,
      first_missing.
    rewrite Hconn, Ht, Hcols. simpl. rewrite close_after_connect.
    reflexivity.
  - intros. unfold khumbuza.complete, khumbuza.select_title_completed,
      prepare, first_missing.
    rewrite Hconn, Ht, Hcols. reflexivity.
  - intros. unfold khumbuza.remove, khumbuza.select_title_completed,
      prepare, first_missing.
    rewrite Hconn, Ht, Hcols. reflexivity.
Qed.

(** X15: Numbers out of range, on a store that serves: an id beyond 64 bits
    makes [complete] and [remove] end on [OverflowError] and not on a
    task that is not found; so do reminder days beyond 64 bits in [add],
    and in [list] a number of days that leaves the calendar, unless all
    tasks are asked for.  No file is changed and the connection stays
    open. *)
Theorem numbers_out_of_range (w : world) (t : table) :
  serves w t ->
  (forall now task_id,
     int64 task_id = false ->
     khumbuza.complete now task_id w
     = (khumbuza.OverflowError, mkworld (files w) (S (connections w))))
  /\ (forall now task_id force,
        int64 task_id = false ->
        khumbuza.remove now task_id force w
        = (khumbuza.OverflowError, mkworld (files w) (S (connections w))))
  /\ (forall now title due description weekly monthly yearly n,
        ~ rejected due weekly monthly yearly (Some n) ->
        int64 n = false ->
        khumbuza.add now title due description weekly monthly yearly
          (Some n) w
        = (khumbuza.OverflowError, mkworld (files w) (S (connections w))))
  /\ (forall today days,
        add_days today days = None ->
        khumbuza.list today days false w
        = (khumbuza.OverflowError, mkworld (files w) (S (connections w)))
        /\ fst (khumbuza.list today days true w) <> khumbuza.OverflowError).
Proof.
  intros Hs.
  destruct (serves_connection w t Hs) as (db & Hconn & Hdb & Ht).
  split; [|split; [|split]].
  - intros now task_id Hid. unfold khumbuza.complete. rewrite Hconn.
    rewrite (overflow_serves w t task_id Hs Hid db Ht). reflexivity.
  - intros now task_id force Hid. unfold khumbuza.remove. rewrite Hconn.
    rewrite (overflow_serves w t task_id Hs Hid db Ht). reflexivity.
  - intros now title due description weekly monthly yearly n Hacc Hn.
    rewrite (add_not_rejected w t now title due description weekly monthly
               yearly (Some n) Hacc Hs).
    simpl. rewrite Hn. reflexivity.
  - intros today days Hnone. rewrite !(list_serves w t today _ _ Hs).
    rewrite Hnone. split; [reflexivity|]. simpl.
    destruct (map _ _); discriminate.
Qed.

(** ** The first run of the bootstrap script *)

(** X11: [setup_database] succeeds exactly where its file has no table
    [tasks] yet (the file may be absent): it then adds the table, empty
    and with its ten columns, to the file, keeps the other tables of the
    file and the other files, and closes its connection.  Where the
    table is there, it fails, changes no file and leaves its connection
    open. *)
Theorem setup_database_outcome (w : world) :
  (default ∅ (files w !! setup_db.DB_FILE) !! "tasks" = None ->
   exists db',
     setup_db.setup_database w
     = (setup_db.Created,
        mkworld (<[setup_db.DB_FILE := db']> (files w)) (connections w))
     /\ db' !! "tasks" = Some (mktable setup_db.tasks_columns 0 [])
     /\ forall name,
          name <> "tasks" ->
          db' !! name = default ∅ (files w !! setup_db.DB_FILE) !! name)
  /\ (default ∅ (files w !! setup_db.DB_FILE) !! "tasks" <> None ->
      setup_db.setup_database w
      = (setup_db.OperationalError (table_already_exists "tasks"),
         mkworld (files w) (S (connections w)))).
Proof.
  unfold setup_db.setup_database, connect, setup_db.create_table_tasks.
  simpl. split.
  - intros ->. eexists. split; [reflexivity|]. split.
    + apply lookup_insert_eq.
    + intros name Hne. apply lookup_insert_ne. congruence.
  - intros Hsome.
    destruct (default ∅ (files w !! setup_db.DB_FILE) !! "tasks");
      [reflexivity|contradiction].
Qed.

(** ** From added to completed to removed *)


(** ** A task in the listing that follows its [add] *)

(** X6: After an [add] that stores its task, the listing of all tasks has
    one line of the new id and only one, and that line is the id, the
    title, the due date as stored and the description. *)
Theorem added_task_is_listed_once (w : world) (t : table)
  (now title : string) (due description : option string)
  (weekly monthly yearly : bool) (remind : option Z) (today : date)
  (days : Z) :
  serves w t -> ~ rejected due weekly monthly yearly remind ->
  int64 (default 0 remind) = true -> int64 (next_id t) = true ->
  List.filter
    (fun line : Z * string * option string * option string =>
       line.1.1.1 =? next_id t)
    (listed
       (fst (khumbuza.list today days true
               (snd (khumbuza.add now title due description weekly monthly
                       yearly remind w)))))
  = [(next_id t, title, stored_due due, description)].
Proof.
  intros Hs Hacc Hadv Hnext.
  rewrite (add_accepted w t now title due description weekly monthly yearly
             remind Hacc Hs Hadv Hnext).
  simpl snd.
  match goal with
  | |- context [put_task_table ?t1 w] =>
      rewrite (list_serves_listed (put_task_table t1 w) t1 today days true)
        by (apply (serves_put w t); [exact Hs|reflexivity])
  end.
  simpl rows.
  assert (Hfilter : forall rs,
             List.filter
               (fun line : Z * string * option string * option string =>
                  line.1.1.1 =? next_id t) (map khumbuza.summary rs)
             = map khumbuza.summary
                 (List.filter (fun x => id x =? next_id t) rs)).
  { induction rs as [|x rs IH]; [reflexivity|]. simpl.
    destruct (id x =? next_id t); simpl; rewrite IH; reflexivity. }
  rewrite Hfilter, order_by_filter, List.filter_app.
  assert (Hold : forall rs,
             (forall x, In x rs -> id x < next_id t) ->
             List.filter (fun x => id x =? next_id t)
               (List.filter (selected None) rs) = []).
  { induction rs as [|x rs IH]; [reflexivity|]. intros Hlt. simpl.
    destruct (selected None x); simpl.
    - assert (Hx : (id x =? next_id t) = false)
        by (apply Z.eqb_neq; specialize (Hlt x (or_introl eq_refl)); lia).
      rewrite Hx. apply IH. intros y Hy. apply Hlt. right. exact Hy.
    - apply IH. intros y Hy. apply Hlt. right. exact Hy. }
  rewrite List.filter_app, (Hold (rows t)) by (apply next_id_fresh).
  simpl. rewrite Z.eqb_refl. reflexivity.
Qed.

(** ** Dates in the ISO form *)

Lemma code_point_digit (n : Z) (rest : string) :
  code_point (String (digit n) rest) = Some (48 + n mod 10, rest).
Proof.
  unfold code_point, byte, digit.
  pose proof (Z.mod_pos_bound n 10 eq_refl) as Hn.
  rewrite N_ascii_embedding by lia.
  replace (Z.of_N (48 + Z.to_N (n mod 10))) with (48 + n mod 10) by lia.
  destruct (Z.ltb_spec (48 + n mod 10) 128); [reflexivity|lia].
Qed.

Lemma decimal_ascii (v : Z) : 0 <= v < 10 -> decimal (48 + v) = Some v.
Proof.
  intros Hv. unfold decimal, decimal_runs. cbn [List.find].
  destruct (Z.leb_spec 48 (48 + v)); [|lia].
  destruct (Z.ltb_spec (48 + v) (48 + 10)); [|lia].
  simpl. f_equal. lia.
Qed.

Lemma any_digit_digit {A} (n : Z) (rest : string)
  (k : Z -> string -> option A) :
  any_digit (String (digit n) rest) k = k (n mod 10) rest.
Proof.
  unfold any_digit. rewrite code_point_digit.
  rewrite decimal_ascii by (apply Z.mod_pos_bound; lia). reflexivity.
Qed.

Lemma four_digits (y : Z) :
  0 <= y < 10000 ->
  1000 * ((y / 1000) mod 10) + 100 * ((y / 100) mod 10)
  + 10 * ((y / 10) mod 10) + y mod 10 = y.
Proof.
  intros Hy. Z.to_euclidean_division_equations. lia.
Qed.

Lemma group_Y_fmt04 {A} (y : Z) (rest : string)
  (k : Z -> string -> option A) :
  0 <= y < 10000 ->
  group_Y (fmt04 y ++ rest)%string k = k y rest.
Proof.
  intros Hy. unfold fmt04, fmt02, group_Y.
  change (String (digit (y / 1000))
            (String (digit (y / 100))
               (String (digit (y / 10)) (String (digit y) ""))) ++ rest)%string
    with (String (digit (y / 1000))
            (String (digit (y / 100))
               (String (digit (y / 10)) (String (digit y) rest)))).
  rewrite (any_digit_digit (y / 1000)). rewrite (any_digit_digit (y / 100)).
  rewrite (any_digit_digit (y / 10)). rewrite (any_digit_digit y).
  rewrite (four_digits y Hy). reflexivity.
Qed.

Lemma valid_date_bounds (d : date) :
  valid_date d = true ->
  1 <= year d <= 9999 /\ 1 <= month d <= 12 /\ 1 <= day d <= 31.
Proof.
  unfold valid_date, MINYEAR, MAXYEAR, _days_in_month. intros H.
  repeat (apply andb_true_iff in H as [H ?]).
  assert (Hm : month d = 1 \/ month d = 2 \/ month d = 3 \/ month d = 4
               \/ month d = 5 \/ month d = 6 \/ month d = 7 \/ month d = 8
               \/ month d = 9 \/ month d = 10 \/ month d = 11
               \/ month d = 12) by lia.
  assert (Hd : day d <= 31).
  { destruct ((month d =? 2) && _is_leap (year d)); [lia|].
    repeat (destruct Hm as [Hm|Hm]; [rewrite Hm in *; simpl in *; lia|]).
    rewrite Hm in *. simpl in *. lia. }
  lia.
Qed.

Lemma regex_matches_isoformat (y m d : Z) :
  0 <= y < 10000 -> 1 <= m <= 12 -> 1 <= d <= 31 ->
  format_regex_match (isoformat (mkdate y m d)) = Some (mkdate y m d, "").
Proof.
  intros Hy Hm Hd. unfold format_regex_match, isoformat. simpl year.
  simpl month. simpl day. rewrite (group_Y_fmt04 y _ _ Hy).
  assert (Hm' : m = 1 \/ m = 2 \/ m = 3 \/ m = 4 \/ m = 5 \/ m = 6 \/ m = 7
                \/ m = 8 \/ m = 9 \/ m = 10 \/ m = 11 \/ m = 12) by lia.
  assert (Hd' : d = 1 \/ d = 2 \/ d = 3 \/ d = 4 \/ d = 5 \/ d = 6 \/ d = 7
                \/ d = 8 \/ d = 9 \/ d = 10 \/ d = 11 \/ d = 12 \/ d = 13
                \/ d = 14 \/ d = 15 \/ d = 16 \/ d = 17 \/ d = 18 \/ d = 19
                \/ d = 20 \/ d = 21 \/ d = 22 \/ d = 23 \/ d = 24 \/ d = 25
                \/ d = 26 \/ d = 27 \/ d = 28 \/ d = 29 \/ d = 30 \/ d = 31)
    by lia.
  clear Hm Hd.
  repeat (destruct Hm' as [->|Hm']); try subst m;
    repeat (destruct Hd' as [->|Hd']); try subst d; reflexivity.
Qed.

(** The ISO text of a date parses, under the format of [add], to the
    date. *)
Lemma strptime_isoformat_any (d : date) :
  valid_date d = true -> strptime (isoformat d) = Some d.
Proof.
  intros Hv. destruct (valid_date_bounds d Hv) as (Hy & Hm & Hd).
  destruct d as [y m dd]. simpl in Hy, Hm, Hd. unfold strptime.
  rewrite (regex_matches_isoformat y m dd) by lia. rewrite Hv. reflexivity.
Qed.

(** X10: [add] takes the ISO text of every date of the calendar as a due
    date, whatever the year, and stores that text. *)
Theorem add_takes_iso_dates (w : world) (t : table) (now title : string)
  (d : date) (description : option string) (weekly monthly yearly : bool)
  (remind : option Z) :
  valid_date d = true ->
  ~ several_flags weekly monthly yearly -> ~ negative_reminder remind ->
  serves w t -> int64 (default 0 remind) = true ->
  int64 (next_id t) = true ->
  strptime (isoformat d) = Some d
  /\ fst (khumbuza.add now title (Some (isoformat d)) description weekly
            monthly yearly remind w)
     = khumbuza.Added (next_id t) title (Some (isoformat d))
  /\ exists t',
       task_table
         (snd (khumbuza.add now title (Some (isoformat d)) description
                 weekly monthly yearly remind w)) = Some t'
       /\ exists r, rows t' = (rows t ++ [r])%list
                    /\ due_date r = Some (isoformat d).
Proof.
  intros Hv Hflags Hrem Hs Hadv Hnext.
  pose proof (strptime_isoformat_any d Hv) as Hparse.
  split; [exact Hparse|].
  assert (Hacc : ~ rejected (Some (isoformat d)) weekly monthly yearly
                   remind).
  { intros [(s & [= <-] & _ & Hp) | [H | H]]; [congruence|tauto..]. }
  assert (Hstored : stored_due (Some (isoformat d)) = Some (isoformat d))
    by reflexivity.
  rewrite (add_accepted w t now title (Some (isoformat d)) description
             weekly monthly yearly remind Hacc Hs Hadv Hnext).
  rewrite Hstored. split; [reflexivity|].
  eexists. split; [apply task_table_put|].
  eexists. split; reflexivity.
Qed.

(** The cut-off date of [list] has a year of four digits at most. *)
Lemma fromordinal_width (o : Z) :
  0 < o <= _MAXORDINAL ->
  0 <= year (fromordinal o) < 10000
  /\ 0 <= month (fromordinal o) < 100
  /\ 0 <= day (fromordinal o) < 100.
Proof.
  intros Ho. unfold fromordinal, _ord2ymd, _MAXORDINAL, _DI400Y, _DI100Y,
    _DI4Y in *.
  cbv zeta.
  set (N := o - 1).
  set (n400 := N / 146097). set (r1 := N mod 146097).
  set (n100 := r1 / 36524). set (r2 := r1 mod 36524).
  set (n4 := r2 / 1461). set (r3 := r2 mod 1461).
  set (n1 := r3 / 365). set (r4 := r3 mod 365).
  assert (HN : 0 <= N <= 3652058) by (unfold N; lia).
  assert (H400 : N = 146097 * n400 + r1 /\ 0 <= r1 < 146097).
  { unfold n400, r1. split; [apply Z.div_mod; lia|apply Z.mod_pos_bound; lia]. }
  assert (H100 : r1 = 36524 * n100 + r2 /\ 0 <= r2 < 36524).
  { unfold n100, r2. split; [apply Z.div_mod; lia|apply Z.mod_pos_bound; lia]. }
  assert (H4 : r2 = 1461 * n4 + r3 /\ 0 <= r3 < 1461).
  { unfold n4, r3. split; [apply Z.div_mod; lia|apply Z.mod_pos_bound; lia]. }
  assert (H1 : r3 = 365 * n1 + r4 /\ 0 <= r4 < 365).
  { unfold n1, r4. split; [apply Z.div_mod; lia|apply Z.mod_pos_bound; lia]. }
  clearbody N n400 r1 n100 r2 n4 r3 n1 r4.
  destruct ((n1 =? 4) || (n100 =? 4)) eqn:Hend.
  - simpl. apply orb_true_iff in Hend. split; [|lia].
    destruct Hend as [H|H]; apply Z.eqb_eq in H; lia.
  - apply orb_false_iff in Hend as [Hn1 Hn100].
    apply Z.eqb_neq in Hn1, Hn100.
    assert (Hyear : 0 <= n400 * 400 + 1 + n100 * 100 + n4 * 4 + n1 < 10000)
      by lia.
    rewrite Z.shiftr_div_pow2 by lia. change (2 ^ 5) with 32.
    set (m := (r4 + 50) / 32).
    assert (Hm : r4 + 50 = 32 * m + (r4 + 50) mod 32
                 /\ 0 <= (r4 + 50) mod 32 < 32).
    { unfold m. split; [apply Z.div_mod; lia|apply Z.mod_pos_bound; lia]. }
    clearbody m.
    assert (Hm' : m = 1 \/ m = 2 \/ m = 3 \/ m = 4 \/ m = 5 \/ m = 6 \/ m = 7
                  \/ m = 8 \/ m = 9 \/ m = 10 \/ m = 11 \/ m = 12) by lia.
    set (leap := (n1 =? 3) && (negb (n4 =? 24) || (n100 =? 3))).
    clearbody leap.
    repeat (destruct Hm' as [->|Hm']); try subst m;
      destruct leap; simpl;
      match goal with
      | |- context [?a <? ?b] => destruct (Z.ltb_spec a b)
      end; simpl; lia.
Qed.

Lemma add_days_width (today cutoff : date) (days : Z) :
  add_days today days = Some cutoff ->
  0 <= year cutoff < 10000 /\ 0 <= month cutoff < 100
  /\ 0 <= day cutoff < 100.
Proof.
  unfold add_days. destruct (999999999 <? Z.abs days); [discriminate|].
  destruct ((0 <? toordinal today + days)
            && (toordinal today + days <=? _MAXORDINAL)) eqn:Hrange;
    [|discriminate].
  intros [= <-]. apply fromordinal_width.
  apply andb_true_iff in Hrange as [H1 H2]. lia.
Qed.

(** X9: For a task whose due date is stored in the ISO form, the horizon of
    [list] is the comparison of dates: the task is in the listing
    exactly when it is incomplete and its due date is at most the date
    that lies [days] days after today. *)
Theorem list_horizon_on_iso_dates (w : world) (t : table)
  (today cutoff d : date) (days : Z) (r : task) :
  serves w t -> primary_key t ->
  add_days today days = Some cutoff ->
  In r (rows t) -> due_date r = Some (isoformat d) -> valid_date d = true ->
  (In (khumbuza.summary r)
     (listed (fst (khumbuza.list today days false w)))
   <-> completed r = 0 /\ date_le d cutoff = true).
Proof.
  intros Hs Hkey Hcut Hin Hdue Hv.
  rewrite (list_serves_listed w t today days false Hs), Hcut. simpl.
  assert (Hsel : selected (Some (isoformat cutoff)) r = true
                 <-> completed r = 0 /\ date_le d cutoff = true).
  { unfold selected, khumbuza.within, String.leb, date_le. rewrite Hdue.
    destruct (valid_date_width d Hv) as (? & ? & ?).
    destruct (add_days_width today cutoff days Hcut) as (? & ? & ?).
    rewrite isoformat_compare by assumption.
    rewrite andb_true_iff, Z.eqb_eq. reflexivity. }
  rewrite <- Hsel. split.
  - intros Hline. apply List.in_map_iff in Hline as (x & Hx & Hxin).
    apply order_by_In, List.filter_In in Hxin as [Hxin Hxsel].
    assert (x = r).
    { apply (key_unique (rows t)); try assumption.
      unfold khumbuza.summary in Hx. congruence. }
    subst x. exact Hxsel.
  - intros Hr. apply List.in_map. apply order_by_In.
    apply List.filter_In. auto.
Qed.

(** ** The further properties on the store of the scenario *)

Lemma plain_input_is_accepted : ~ rejected None false false false None.
Proof.
  intros [(s & [=] & _) | [H | (n & [=] & _)]].
  unfold several_flags in H. intuition discriminate.
Qed.

Lemma empty_table_serves : serves empty_store (mktable task_columns 0 []).
Proof. split; vm_compute; reflexivity. Qed.

Lemma run_keeps_store_witness :
  exists t',
    serves
      (snd (run "2025-01-06 10:00:00" (mkdate 2025 1 6) (Complete 1)
              rent_store)) t'
    /\ kept rent_table t'.
Proof.
  apply (run_keeps_store "2025-01-06 10:00:00" (mkdate 2025 1 6)
           (Complete 1) rent_store rent_table rent_store_serves
           rent_table_key).
Defined.

Lemma run_lifecycle_witness :
  exists t' old new,
    serves
      (snd (run "2025-01-06 10:00:00" (mkdate 2025 1 6) (Remove 1 true)
              rent_store)) t'
    /\ rows t' = (old ++ new)%list /\ Forall2 ages (rows rent_table) old.
Proof.
  apply (run_lifecycle "2025-01-06 10:00:00" (mkdate 2025 1 6)
           (Remove 1 true) rent_store rent_table rent_store_serves
           rent_table_key).
Defined.

Lemma run_connections_witness :
  connections
    (snd (run "2025-01-06 10:00:00" (mkdate 2025 1 6) (Remove 1 false)
            rent_store)) = 1%nat
  /\ connections
       (snd (run "2025-01-06 10:00:00" (mkdate 2025 1 6) (Complete 1)
               rent_store)) = 0%nat.
Proof.
  split.
  - rewrite (run_connections "2025-01-06 10:00:00" (mkdate 2025 1 6)
               (Remove 1 false) rent_store rent_table rent_store_serves).
    reflexivity.
  - rewrite (run_connections "2025-01-06 10:00:00" (mkdate 2025 1 6)
               (Complete 1) rent_store rent_table rent_store_serves).
    reflexivity.
Defined.


Lemma added_task_is_listed_once_witness :
  List.filter
    (fun line : Z * string * option string * option string =>
       line.1.1.1 =? 2)
    (listed
       (fst (khumbuza.list (mkdate 2025 1 6) 30 true
               (snd (khumbuza.add "2025-01-06 10:00:00" "Buy milk" None None
                       false false false None rent_store)))))
  = [(2, "Buy milk", None, None)].
Proof.
  apply (added_task_is_listed_once rent_store rent_table
           "2025-01-06 10:00:00" "Buy milk" None None false false false None
           (mkdate 2025 1 6) 30 rent_store_serves plain_input_is_accepted
           eq_refl eq_refl).
Defined.

Lemma remove_keeps_listing_witness :
  fst (khumbuza.list (mkdate 2025 1 6) 30 false
         (snd (khumbuza.remove "2025-01-06 10:00:00" 1 true rent_store)))
  = fst (khumbuza.list (mkdate 2025 1 6) 30 false rent_store).
Proof.
  apply (remove_keeps_listing rent_store _ rent_table "2025-01-06 10:00:00"
           "Pay rent" 1 true (mkdate 2025 1 6) 30 false rent_store_serves).
  vm_compute. reflexivity.
Defined.

Lemma complete_takes_line_out_witness :
  listed
    (fst (khumbuza.list (mkdate 2025 1 6) 30 false
            (snd (khumbuza.complete "2025-01-06 10:00:00" 1 rent_store))))
  = List.filter
      (fun line : Z * string * option string * option string =>
         negb (line.1.1.1 =? 1))
      (listed (fst (khumbuza.list (mkdate 2025 1 6) 30 false rent_store))).
Proof.
  apply (complete_takes_line_out rent_store _ rent_table
           "2025-01-06 10:00:00" "Pay rent" 1 (mkdate 2025 1 6) 30 false
           rent_store_serves).
  vm_compute. reflexivity.
Defined.

Lemma list_horizon_on_iso_dates_witness :
  In (khumbuza.summary rent)
    (listed (fst (khumbuza.list (mkdate 2025 1 4) 30 false rent_store)))
  <-> completed rent = 0
      /\ date_le (mkdate 2025 1 5) (mkdate 2025 2 3) = true.
Proof.
  apply (list_horizon_on_iso_dates rent_store rent_table (mkdate 2025 1 4)
           (mkdate 2025 2 3) (mkdate 2025 1 5) 30 rent rent_store_serves
           rent_table_key).
  - vm_compute. reflexivity.
  - simpl. auto.
  - reflexivity.
  - reflexivity.
Defined.

Lemma add_takes_iso_dates_witness :
  strptime (isoformat (mkdate 2024 2 29)) = Some (mkdate 2024 2 29)
  /\ fst (khumbuza.add "2025-01-04 09:00:00" "Leap day"
            (Some (isoformat (mkdate 2024 2 29))) None false false false
            None empty_store)
     = khumbuza.Added 1 "Leap day" (Some (isoformat (mkdate 2024 2 29)))
  /\ exists t',
       task_table
         (snd (khumbuza.add "2025-01-04 09:00:00" "Leap day"
                 (Some (isoformat (mkdate 2024 2 29))) None false false
                 false None empty_store)) = Some t'
       /\ exists r, rows t' = ([] ++ [r])%list
                    /\ due_date r = Some (isoformat (mkdate 2024 2 29)).
Proof.
  apply (add_takes_iso_dates empty_store (mktable task_columns 0 [])
           "2025-01-04 09:00:00" "Leap day" (mkdate 2024 2 29) None false
           false false None eq_refl).
  - unfold several_flags. intuition discriminate.
  - intros (n & [=] & _).
  - exact empty_table_serves.
  - reflexivity.
  - reflexivity.
Defined.

Lemma setup_database_outcome_witness :
  exists db',
    setup_db.setup_database (mkworld ∅ 0)
    = (setup_db.Created, mkworld (<[setup_db.DB_FILE := db']> ∅) 0)
    /\ db' !! "tasks" = Some (mktable setup_db.tasks_columns 0 [])
    /\ forall name,
         name <> "tasks" ->
         db' !! name
         = default ∅ (files (mkworld ∅ 0) !! setup_db.DB_FILE) !! name.
Proof.
  apply (proj1 (setup_database_outcome (mkworld ∅ 0))).
  simpl. rewrite lookup_empty. apply lookup_empty.
Defined.

Lemma missing_store_witness :
  run "2025-01-06 10:00:00" (mkdate 2025 1 6) (Complete 1) (mkworld ∅ 0)
  = (khumbuza.DatabaseNotFound, mkworld ∅ 0).
Proof.
  assert (Hnone : files (mkworld ∅ 0) !! khumbuza.DB_FILE = None)
    by apply lookup_empty.
  destruct (missing_store (mkworld ∅ 0) Hnone) as (H & _).
  exact (H "2025-01-06 10:00:00" (mkdate 2025 1 6) (Complete 1)).
Defined.

Lemma missing_table_witness :
  khumbuza.complete "2025-01-06 10:00:00" 1
    (mkworld {[ khumbuza.DB_FILE := ∅ ]} 0)
  = (khumbuza.OperationalError (no_such_table "task"),
     mkworld {[ khumbuza.DB_FILE := ∅ ]} 1).
Proof.
  assert (Hfile : files (mkworld {[ khumbuza.DB_FILE := ∅ ]} 0)
                  !! khumbuza.DB_FILE = Some (∅ : gmap string table))
    by apply lookup_singleton_eq.
  assert (Hnone : (∅ : gmap string table) !! "task" = None)
    by apply lookup_empty.
  destruct (missing_table (mkworld {[ khumbuza.DB_FILE := ∅ ]} 0) ∅
              Hfile Hnone) as (_ & H & _).
  exact (H "2025-01-06 10:00:00" 1).
Defined.

Lemma table_without_deleted_date_witness :
  khumbuza.remove "2025-01-06 10:00:00" 1 true
    (mkworld
       {[ khumbuza.DB_FILE :=
            {[ "task" := mktable setup_db.tasks_columns 0 [] ]} ]} 0)
  = (khumbuza.OperationalError (no_such_column "deleted_date"),
     mkworld
       {[ khumbuza.DB_FILE :=
            {[ "task" := mktable setup_db.tasks_columns 0 [] ]} ]} 1).
Proof.
  assert (Hfile : files
                    (mkworld
                       {[ khumbuza.DB_FILE :=
                            {[ "task" := mktable setup_db.tasks_columns 0
                                           [] ]} ]} 0)
                  !! khumbuza.DB_FILE
                  = Some ({[ "task" := mktable setup_db.tasks_columns 0 [] ]}
                          : gmap string table))
    by apply lookup_singleton_eq.
  assert (Htable : ({[ "task" := mktable setup_db.tasks_columns 0 [] ]}
                    : gmap string table) !! "task"
                   = Some (mktable setup_db.tasks_columns 0 []))
    by apply lookup_singleton_eq.
  destruct (table_without_deleted_date _ _ _ Hfile Htable eq_refl)
    as (_ & _ & H).
  exact (H "2025-01-06 10:00:00" 1 true).
Defined.

Lemma numbers_out_of_range_witness :
  khumbuza.complete "2025-01-06 10:00:00" (2 ^ 63) rent_store
  = (khumbuza.OverflowError,
     mkworld (files rent_store) (S (connections rent_store))).
Proof.
  destruct (numbers_out_of_range rent_store rent_table rent_store_serves)
    as (H & _).
  exact (H "2025-01-06 10:00:00" (2 ^ 63) eq_refl).
Defined.


Lemma removed_is_not_found_witness :
  khumbuza.complete "2025-01-07 10:00:00" 1
    (snd (khumbuza.remove "2025-01-06 10:00:00" 1 true rent_store))
  = (khumbuza.TaskNotFound 1,
     snd (khumbuza.remove "2025-01-06 10:00:00" 1 true rent_store))
  /\ khumbuza.remove "2025-01-07 10:00:00" 1 true
       (snd (khumbuza.remove "2025-01-06 10:00:00" 1 true rent_store))
     = (khumbuza.TaskNotFound 1,
        snd (khumbuza.remove "2025-01-06 10:00:00" 1 true rent_store)).
Proof.
  apply (removed_is_not_found rent_store rent_table "2025-01-06 10:00:00"
           "2025-01-07 10:00:00" 1 true true "Pay rent" _ rent_store_serves).
  vm_compute. reflexivity.
Defined.

(** * Due dates as texts, and numbers beyond 64 bits *)

(** ** [add] *)

Lemma iso_due_is_stored (due : option string) :
  iso_due due -> ~ bad_due due /\ stored_due due = due.
Proof.
  intros [->|(d & Hv & ->)].
  - split; [|reflexivity]. intros (s & [=] & _).
  - split.
    + intros (s & [= <-] & _ & Hp).
      rewrite (strptime_isoformat_any d Hv) in Hp. discriminate.
    + reflexivity.
Qed.

(** C5, as the code has it: [add] reports a validation error, and leaves
    the world as it was, on a due date that is given, is not the empty
    text and does not parse, on two recurrence flags or more, and on
    negative reminder days.  Where the due date is absent or is the
    zero-padded text [YYYY-MM-DD] of a date of the calendar, two flags
    or more and negative reminder days are the only inputs that end on a
    validation error, whatever the title; every other such input, on a
    store that serves and with numbers within 64 bits, is stored as one
    new row after the rows that were there, incomplete and not deleted,
    under the id that [add] reports, which is above every id of the
    table. *)
Theorem add_contract (w : world) (now title : string)
  (due description : option string) (weekly monthly yearly : bool)
  (remind : option Z) :
  (rejected due weekly monthly yearly remind ->
   validation_error
     (fst (khumbuza.add now title due description weekly monthly yearly
             remind w))
   /\ snd (khumbuza.add now title due description weekly monthly yearly
             remind w) = w)
  /\ (iso_due due ->
      (validation_error
         (fst (khumbuza.add now title due description weekly monthly
                 yearly remind w))
       <-> several_flags weekly monthly yearly \/ negative_reminder remind)
      /\ (~ several_flags weekly monthly yearly ->
          ~ negative_reminder remind ->
          forall t,
            serves w t -> int64 (default 0 remind) = true ->
            int64 (next_id t) = true ->
            exists r,
              khumbuza.add now title due description weekly monthly yearly
                remind w
              = (khumbuza.Added (id r) title due,
                 put_task_table
                   (mktable (columns t) (id r) (rows t ++ [r])) w)
              /\ id r = next_id t
              /\ (forall x, In x (rows t) -> id x < id r)
              /\ sqlite3.title r = title
              /\ sqlite3.description r = description
              /\ due_date r = due
              /\ completed r = 0 /\ completed_date r = None
              /\ deleted_date r = None)).
Proof.
  split; [apply add_rejected|].
  intros Hiso. destruct (iso_due_is_stored due Hiso) as [Hdue Hstored].
  split.
  - rewrite add_validation_iff. unfold rejected. tauto.
  - intros Hflags Hrem t Hs Hadv Hnext.
    assert (Hacc : ~ rejected due weekly monthly yearly remind)
      by (unfold rejected; tauto).
    rewrite (add_accepted w t now title due description weekly monthly
               yearly remind Hacc Hs Hadv Hnext).
    rewrite Hstored.
    eexists (mktask (next_id t) title description due 0 _ 1 _ now None None).
    simpl. repeat split. intros x Hx. apply next_id_fresh. exact Hx.
Qed.

(** A title that is the empty text is stored, and reminder days beyond
    64 bits, which are not negative, end on [OverflowError] with no row
    written. *)
Lemma add_empty_title_and_overflow :
  (khumbuza.add "2025-01-04 09:00:00" "" None None false false false None
     empty_store
   = (khumbuza.Added 1 "" None,
      put_task_table
        (mktable task_columns 1
           [mktask 1 "" None None 0 None 1 0 "2025-01-04 09:00:00" None
              None])
        empty_store)
   /\ ~ validation_error
          (fst (khumbuza.add "2025-01-04 09:00:00" "" None None false false
                  false None empty_store)))
  /\ (khumbuza.add "2025-01-04 09:00:00" "Pay rent" (Some "2025-01-05")
        None false false false (Some (2 ^ 63)) empty_store
      = (khumbuza.OverflowError, mkworld (files empty_store) 1)
      /\ strptime "2025-01-05" = Some (mkdate 2025 1 5)).
Proof.
  destruct empty_store_serves as [Hs _].
  assert (Hacc : forall due, iso_due due ->
            forall remind, ~ negative_reminder remind ->
            ~ rejected due false false false remind).
  { intros due Hiso remind Hrem.
    destruct (iso_due_is_stored due Hiso) as [Hdue _].
    unfold rejected, several_flags. intuition discriminate. }
  assert (Hnone : ~ negative_reminder None) by (intros (n & [=] & _)).
  assert (Hbig : ~ negative_reminder (Some (2 ^ 63)))
    by (intros (n & [= <-] & Hn); lia).
  assert (Hiso : iso_due (Some "2025-01-05")).
  { right. exists (mkdate 2025 1 5). split; reflexivity. }
  split; [split|split].
  - rewrite (add_accepted _ _ "2025-01-04 09:00:00" "" None None false false
               false None (Hacc None (or_introl eq_refl) None Hnone) Hs
               eq_refl eq_refl).
    reflexivity.
  - rewrite add_validation_iff.
    exact (Hacc None (or_introl eq_refl) None Hnone).
  - rewrite (add_not_rejected _ _ "2025-01-04 09:00:00" "Pay rent"
               (Some "2025-01-05") None false false false (Some (2 ^ 63))
               (Hacc _ Hiso _ Hbig) Hs).
    reflexivity.
  - reflexivity.
Qed.

Lemma add_contract_witness :
  exists r,
    khumbuza.add "2025-01-04 09:00:00" "Pay rent" (Some "2025-01-05") None
      false true false (Some 3) empty_store
    = (khumbuza.Added (id r) "Pay rent" (Some "2025-01-05"),
       put_task_table (mktable task_columns (id r) [r]) empty_store)
    /\ id r = 1 /\ completed r = 0 /\ deleted_date r = None.
Proof.
  destruct (add_contract empty_store "2025-01-04 09:00:00" "Pay rent"
              (Some "2025-01-05") None false true false (Some 3))
    as (_ & Hiso).
  destruct Hiso as (_ & Hadd).
  - right. exists (mkdate 2025 1 5). split; reflexivity.
  - destruct (Hadd) with (t := mktable task_columns 0 [])
      as (r & Heq & Hid & _ & _ & _ & _ & Hc & _ & Hd).
    + unfold several_flags. intuition discriminate.
    + intros (n & [= <-] & Hn). lia.
    + split; vm_compute; reflexivity.
    + reflexivity.
    + reflexivity.
    + exists r. split; [exact Heq|]. split; [exact Hid|]. split; assumption.
Defined.

(** ** [complete] beyond 64 bits *)

(** No task of the store of the scenario has the id [2 ^ 63]; [complete]
    of that id ends on [OverflowError] with its connection open, and not
    on a task that is not found. *)
Lemma complete_beyond_64_bits :
  serves rent_store rent_table
  /\ (forall r, In r (rows rent_table) -> id r <> 2 ^ 63)
  /\ khumbuza.complete "2025-01-06 10:00:00" (2 ^ 63) rent_store
     = (khumbuza.OverflowError, mkworld (files rent_store) 1)
  /\ khumbuza.complete "2025-01-06 10:00:00" (2 ^ 63) rent_store
     <> (khumbuza.TaskNotFound (2 ^ 63), rent_store).
Proof.
  pose proof rent_store_serves as Hs.
  destruct (serves_connection _ _ Hs) as (db & Hconn & _ & Ht).
  assert (Hrun : khumbuza.complete "2025-01-06 10:00:00" (2 ^ 63) rent_store
                 = (khumbuza.OverflowError, mkworld (files rent_store) 1)).
  { unfold khumbuza.complete. rewrite Hconn.
    rewrite (overflow_serves _ _ (2 ^ 63) Hs eq_refl db Ht). reflexivity. }
  split; [exact Hs|]. split; [|split; [exact Hrun|]].
  - intros r [<-|[]]. discriminate.
  - rewrite Hrun. discriminate.
Qed.

(** ** The order of a listing and the dates *)

(** C8, at due dates that [add] accepts: the task due on 1 October 2025
    is listed before the task due on 1 September 2025, and of two tasks
    due on 5 January 2025 the one with the greater id is listed first;
    in the listing of all tasks and in the listing within a horizon. *)
Theorem listing_orders_text_not_dates :
  let now := "2025-12-15 09:00:00" in
  let w1 :=
    snd (khumbuza.add now "A" (Some "2025-9-1") None false false false None
           empty_store) in
  let w2 :=
    snd (khumbuza.add now "B" (Some "2025-10-01") None false false false
           None w1) in
  let v1 :=
    snd (khumbuza.add now "A" (Some "2025-1-5") None false false false None
           empty_store) in
  let v2 :=
    snd (khumbuza.add now "B" (Some "2025-01-05") None false false false
           None v1) in
  (strptime "2025-9-1" = Some (mkdate 2025 9 1)
   /\ strptime "2025-10-01" = Some (mkdate 2025 10 1)
   /\ date_compare (mkdate 2025 9 1) (mkdate 2025 10 1) = Lt
   /\ fst (khumbuza.add now "A" (Some "2025-9-1") None false false false
             None empty_store)
      = khumbuza.Added 1 "A" (Some "2025-9-1")
   /\ fst (khumbuza.add now "B" (Some "2025-10-01") None false false false
             None w1)
      = khumbuza.Added 2 "B" (Some "2025-10-01")
   /\ fst (khumbuza.list (mkdate 2025 12 15) 30 true w2)
      = khumbuza.Tasks
          [(2, "B", Some "2025-10-01", None); (1, "A", Some "2025-9-1", None)]
   /\ fst (khumbuza.list (mkdate 2025 12 15) 30 false w2)
      = khumbuza.Tasks
          [(2, "B", Some "2025-10-01", None);
           (1, "A", Some "2025-9-1", None)])
  /\ (strptime "2025-1-5" = Some (mkdate 2025 1 5)
      /\ strptime "2025-01-05" = Some (mkdate 2025 1 5)
      /\ fst (khumbuza.add now "A" (Some "2025-1-5") None false false false
                None empty_store)
         = khumbuza.Added 1 "A" (Some "2025-1-5")
      /\ fst (khumbuza.add now "B" (Some "2025-01-05") None false false
                false None v1)
         = khumbuza.Added 2 "B" (Some "2025-01-05")
      /\ fst (khumbuza.list (mkdate 2025 12 15) 30 true v2)
         = khumbuza.Tasks
             [(2, "B", Some "2025-01-05", None);
              (1, "A", Some "2025-1-5", None)]
      /\ fst (khumbuza.list (mkdate 2025 12 15) 30 false v2)
         = khumbuza.Tasks
             [(2, "B", Some "2025-01-05", None);
              (1, "A", Some "2025-1-5", None)]).
Proof. vm_compute. repeat split; reflexivity. Qed.

(** X19: where the due dates of two lines of a listing are stored in the
    ISO form, the line that comes earlier has the earlier date, or the
    same date and the smaller id. *)
Theorem list_order_on_iso_dates (w : world) (today : date) (days : Z)
  (show_all : bool) (i j : nat) (id_a id_b : Z) (title_a title_b : string)
  (da db : date) (description_a description_b : option string) :
  (i < j)%nat -> valid_date da = true -> valid_date db = true ->
  listed (fst (khumbuza.list today days show_all w)) !! i
  = Some (id_a, title_a, Some (isoformat da), description_a) ->
  listed (fst (khumbuza.list today days show_all w)) !! j
  = Some (id_b, title_b, Some (isoformat db), description_b) ->
  date_compare da db = Lt \/ (da = db /\ id_a <= id_b).
Proof.
  intros Hij Ha Hb Hi Hj.
  pose proof (listed_in_order w today days show_all i j _ _ Hij Hi Hj)
    as Hbefore.
  destruct (valid_date_width da Ha) as (? & ? & ?).
  destruct (valid_date_width db Hb) as (? & ? & ?).
  unfold before, String.ltb in Hbefore.
  rewrite isoformat_compare in Hbefore by assumption.
  destruct Hbefore as [Hlt|[Heq Hid]].
  - left. destruct (date_compare da db); [discriminate|reflexivity|
                                          discriminate].
  - right. split; [|exact Hid].
    pose proof (strptime_isoformat_any da Ha) as Hpa.
    pose proof (strptime_isoformat_any db Hb) as Hpb.
    congruence.
Qed.

Lemma list_order_on_iso_dates_witness :
  date_compare (mkdate 2024 12 31) (mkdate 2025 1 5) = Lt
  \/ (mkdate 2024 12 31 = mkdate 2025 1 5 /\ 2 <= 1).
Proof.
  apply (list_order_on_iso_dates
           (snd (khumbuza.add "2025-01-04 09:30:00" "Pay water"
                   (Some "2024-12-31") None false false false None
                   rent_store))
           (mkdate 2025 1 4) 30 false 0 1 2 1
           "Pay water" "Pay rent" (mkdate 2024 12 31) (mkdate 2025 1 5)
           None None).
  - lia.
  - reflexivity.
  - reflexivity.
  - vm_compute. reflexivity.
  - vm_compute. reflexivity.
Defined.

(** ** Due dates that are not in the ISO form *)

Lemma leb_of_before (x y : string) (id_a id_b : Z) :
  String.ltb x y = true \/ (x = y /\ id_a <= id_b) ->
  String.leb x y = true /\ (x = y -> id_a <= id_b).
Proof.
  unfold String.ltb, String.leb. intros [Hlt|[<- Hid]].
  - destruct (String.compare x y) eqn:Hc; try discriminate.
    split; [reflexivity|]. intros <-.
    rewrite (proj2 (string_compare_eq x x) eq_refl) in Hc. discriminate.
  - rewrite (proj2 (string_compare_eq x x) eq_refl). auto.
Qed.

(** C10: the text ["2025-1-5"] parses and is not the ISO text of its
    date.  Every due date that parses is stored as the text it is.  In a
    listing within a horizon, a task with a due date is a line exactly
    when it is incomplete and the text of its due date is at most the
    ISO text of the cut-off, byte by byte; and in every listing the texts
    of the due dates ascend byte by byte, equal texts by id.  So of two
    tasks due on 1 September 2025, within the horizon, one is listed and
    one is not; of two tasks due the day after the cut-off one is
    listed; and a task due on 25 December 2025 is listed before a task
    due on 1 March 2025. *)
Theorem lax_due_dates_are_compared_as_text :
  (strptime "2025-1-5" = Some (mkdate 2025 1 5)
   /\ isoformat (mkdate 2025 1 5) <> "2025-1-5")
  /\ (forall (w : world) (t : table) (now title s : string) (d : date)
        (description : option string) (weekly monthly yearly : bool)
        (remind : option Z),
        strptime s = Some d ->
        ~ several_flags weekly monthly yearly -> ~ negative_reminder remind ->
        serves w t -> int64 (default 0 remind) = true ->
        int64 (next_id t) = true ->
        exists r,
          khumbuza.add now title (Some s) description weekly monthly yearly
            remind w
          = (khumbuza.Added (next_id t) title (Some s),
             put_task_table
               (mktable (columns t) (next_id t) (rows t ++ [r])) w)
          /\ id r = next_id t /\ due_date r = Some s)
  /\ (forall (w : world) (t : table) (today cutoff : date) (days : Z)
        (r : task) (s : string),
        serves w t -> primary_key t -> add_days today days = Some cutoff ->
        In r (rows t) -> due_date r = Some s ->
        (In (khumbuza.summary r)
           (listed (fst (khumbuza.list today days false w)))
         <-> completed r = 0 /\ String.leb s (isoformat cutoff) = true))
  /\ (forall (w : world) (today : date) (days : Z) (show_all : bool)
        (i j : nat) (id_a id_b : Z) (title_a title_b x y : string)
        (description_a description_b : option string),
        (i < j)%nat ->
        listed (fst (khumbuza.list today days show_all w)) !! i
        = Some (id_a, title_a, Some x, description_a) ->
        listed (fst (khumbuza.list today days show_all w)) !! j
        = Some (id_b, title_b, Some y, description_b) ->
        String.leb x y = true /\ (x = y -> id_a <= id_b))
  /\ (let w1 :=
        snd (khumbuza.add "2025-08-25 09:00:00" "A" (Some "2025-9-1") None
               false false false None empty_store) in
      let w2 :=
        snd (khumbuza.add "2025-08-25 09:05:00" "B" (Some "2025-09-01") None
               false false false None w1) in
      strptime "2025-9-1" = Some (mkdate 2025 9 1)
      /\ strptime "2025-09-01" = Some (mkdate 2025 9 1)
      /\ add_days (mkdate 2025 8 25) 30 = Some (mkdate 2025 9 24)
      /\ date_le (mkdate 2025 9 1) (mkdate 2025 9 24) = true
      /\ fst (khumbuza.list (mkdate 2025 8 25) 30 true w2)
         = khumbuza.Tasks
             [(2, "B", Some "2025-09-01", None);
              (1, "A", Some "2025-9-1", None)]
      /\ fst (khumbuza.list (mkdate 2025 8 25) 30 false w2)
         = khumbuza.Tasks [(2, "B", Some "2025-09-01", None)])
  /\ (let w1 :=
        snd (khumbuza.add "2025-01-04 09:00:00" "C" (Some "2025-01- 5") None
               false false false None empty_store) in
      let w2 :=
        snd (khumbuza.add "2025-01-04 09:05:00" "D" (Some "2025-01-05") None
               false false false None w1) in
      strptime "2025-01- 5" = Some (mkdate 2025 1 5)
      /\ strptime "2025-01-05" = Some (mkdate 2025 1 5)
      /\ add_days (mkdate 2025 1 4) 0 = Some (mkdate 2025 1 4)
      /\ date_le (mkdate 2025 1 5) (mkdate 2025 1 4) = false
      /\ fst (khumbuza.list (mkdate 2025 1 4) 0 false w2)
         = khumbuza.Tasks [(1, "C", Some "2025-01- 5", None)])
  /\ (let w1 :=
        snd (khumbuza.add "2025-02-01 09:00:00" "E" (Some "2025-3-1") None
               false false false None empty_store) in
      let w2 :=
        snd (khumbuza.add "2025-02-01 09:05:00" "F" (Some "2025-12-25") None
               false false false None w1) in
      strptime "2025-3-1" = Some (mkdate 2025 3 1)
      /\ strptime "2025-12-25" = Some (mkdate 2025 12 25)
      /\ date_compare (mkdate 2025 3 1) (mkdate 2025 12 25) = Lt
      /\ fst (khumbuza.list (mkdate 2025 2 1) 30 true w2)
         = khumbuza.Tasks
             [(2, "F", Some "2025-12-25", None);
              (1, "E", Some "2025-3-1", None)]
      /\ fst (khumbuza.list (mkdate 2025 2 1) 400 false w2)
         = khumbuza.Tasks
             [(2, "F", Some "2025-12-25", None);
              (1, "E", Some "2025-3-1", None)]).
Proof.
  split; [split; [reflexivity|discriminate]|].
  split; [|split; [|split]].
  - intros w t now title s d description weekly monthly yearly remind Hp
      Hflags Hrem Hs Hadv Hnext.
    assert (Hne : stored_due (Some s) = Some s).
    { destruct s; [discriminate|reflexivity]. }
    assert (Hacc : ~ rejected (Some s) weekly monthly yearly remind).
    { intros [(s' & [= <-] & _ & Hp') | [H | H]]; [congruence|tauto..]. }
    rewrite (add_accepted w t now title (Some s) description weekly monthly
               yearly remind Hacc Hs Hadv Hnext).
    rewrite Hne. eexists. split; [reflexivity|]. split; reflexivity.
  - intros w t today cutoff days r s Hs Hkey Hcut Hin Hdue.
    rewrite (list_serves_listed w t today days false Hs), Hcut. simpl.
    assert (Hsel : selected (Some (isoformat cutoff)) r = true
                   <-> completed r = 0
                       /\ String.leb s (isoformat cutoff) = true).
    { unfold selected, khumbuza.within. rewrite Hdue.
      rewrite andb_true_iff, Z.eqb_eq. reflexivity. }
    rewrite <- Hsel. split.
    + intros Hline. apply List.in_map_iff in Hline as (x & Hx & Hxin).
      apply order_by_In, List.filter_In in Hxin as [Hxin Hxsel].
      assert (x = r).
      { apply (key_unique (rows t)); try assumption.
        unfold khumbuza.summary in Hx. congruence. }
      subst x. exact Hxsel.
    + intros Hr. apply List.in_map. apply order_by_In.
      apply List.filter_In. auto.
  - intros w today days show_all i j id_a id_b title_a title_b x y
      description_a description_b Hij Hi Hj.
    apply leb_of_before.
    exact (listed_in_order w today days show_all i j _ _ Hij Hi Hj).
  - vm_compute. repeat split; reflexivity.
Qed.

Lemma lax_due_dates_are_compared_as_text_witness :
  (exists r,
     khumbuza.add "2025-01-04 09:30:00" "Pay water" (Some "2025-1-5") None
       false false false None rent_store
     = (khumbuza.Added 2 "Pay water" (Some "2025-1-5"),
        put_task_table (mktable task_columns 2 [rent; r]) rent_store)
     /\ id r = 2 /\ due_date r = Some "2025-1-5")
  /\ (In (khumbuza.summary rent)
        (listed (fst (khumbuza.list (mkdate 2025 1 4) 30 false rent_store)))
      <-> completed rent = 0 /\ String.leb "2025-01-05" "2025-02-03" = true)
  /\ String.leb "2024-12-31" "2025-01-05" = true
  /\ ("2024-12-31" = "2025-01-05" -> 2 <= 1).
Proof.
  destruct lax_due_dates_are_compared_as_text
    as (_ & Hadd & Hlist & Horder & _).
  split; [|split].
  - apply (Hadd rent_store rent_table "2025-01-04 09:30:00" "Pay water"
             "2025-1-5" (mkdate 2025 1 5) None false false false None).
    + reflexivity.
    + unfold several_flags. intuition discriminate.
    + intros (n & [=] & _).
    + exact rent_store_serves.
    + reflexivity.
    + reflexivity.
  - apply (Hlist rent_store rent_table (mkdate 2025 1 4) (mkdate 2025 2 3)
             30 rent "2025-01-05").
    + exact rent_store_serves.
    + exact rent_table_key.
    + reflexivity.
    + simpl. auto.
    + reflexivity.
  - apply (Horder
             (snd (khumbuza.add "2025-01-04 09:30:00" "Pay water"
                     (Some "2024-12-31") None false false false None
                     rent_store))
             (mkdate 2025 1 4) 30 false 0%nat 1%nat 2 1 "Pay water"
             "Pay rent" "2024-12-31" "2025-01-05" None None).
    + lia.
    + vm_compute. reflexivity.
    + vm_compute. reflexivity.
Defined.
